(** * WRICEF dashboard: the data pipeline of [wricef_visualizer.py] and
      [streamlit_dashboard.py]

    The two scripts share one pipeline: a loader with a synthetic fallback,
    a preparer (visualizer only), a filter (dashboard only) and an insight
    generator.  Everything is a composition of pandas calls, so the
    development has two layers:

    - [Pandas]: the few DataFrame and Series operations the scripts call,
      over a frame kept as a header and a list of records;
    - [Visualizer] and [Dashboard]: the methods of the two classes, written
      call by call on top of that layer.

    Python exceptions are values of [exn]; a method that can raise returns a
    [result].  Floats are IEEE binary64 values ([spec_float] at precision 53),
    so that division by zero, infinities and NaN behave as they do in numpy. *)

From Stdlib Require Import ZArith List String Ascii Bool Lia DecimalString.
From Stdlib Require Import Floats.SpecFloat.
From stdpp Require Import base list.
Import ListNotations.
Local Open Scope string_scope.
Local Open Scope Z_scope.
Local Open Scope list_scope.

(** ** Binary64 *)

Module F64.

Definition float := spec_float.

Definition prec : Z := 53.
Definition emax : Z := 1024.

Definition add : float -> float -> float := SFadd prec emax.
Definition mul : float -> float -> float := SFmul prec emax.
Definition div : float -> float -> float := SFdiv prec emax.

Definition of_Z (z : Z) : float := binary_normalize prec emax z 0 false.
Definition of_nat (n : nat) : float := of_Z (Z.of_nat n).

Definition zero : float := S754_zero false.
Definition nan : float := S754_nan.
Definition inf : float := S754_infinity false.

Definition is_nan (x : float) : bool :=
  match x with S754_nan => true | _ => false end.

Definition is_inf (x : float) : bool :=
  match x with S754_infinity _ => true | _ => false end.

Definition is_finite (x : float) : bool :=
  match x with S754_zero _ | S754_finite _ _ _ => true | _ => false end.

Definition is_zero (x : float) : bool :=
  match x with S754_zero _ => true | _ => false end.

Definition eqb : float -> float -> bool := SFeqb.
Definition leb : float -> float -> bool := SFleb.

End F64.

Abbreviation float := F64.float.

(** ** Values, exceptions and results *)

(** A [Timestamp]: the calendar date as a day number (the proleptic
    ordinal of [datetime.date]) and the time of day in nanoseconds. *)
Record Timestamp : Type := mkTimestamp { ts_date : Z; ts_time : Z }.

(** A [datetime.date], as its day number. *)
Abbreviation date := Z.

(** One cell of a frame.  [NA] stands for every missing marker (None, NaN,
    NaT); numbers are floats (an integer cell is its float value). *)
Inductive cell : Type :=
| NA
| Num (x : float)
| Str (s : string)
| Stamp (t : Timestamp).

Definition isna (c : cell) : bool :=
  match c with
  | NA => true
  | Num x => F64.is_nan x
  | _ => false
  end.

(** The exceptions the scripts can meet; [KeyError] carries the key that
    was looked up (a column label, or the integer 0 as a number). *)
Inductive exn : Type :=
| KeyError (k : cell)
| IndexError
| TypeError
| AttributeError
| FileNotFoundError
| ValueError.

Inductive result (A : Type) : Type :=
| Ok (a : A)
| Raise (e : exn).
Arguments Ok {A} a.
Arguments Raise {A} e.

Definition bind {A B : Type} (r : result A) (k : A -> result B) : result B :=
  match r with
  | Ok a => k a
  | Raise e => Raise e
  end.

Declare Scope result_scope.
Delimit Scope result_scope with result.
Notation "x <- r ;; k" := (bind r (fun x => k))
  (at level 100, r at next level, right associativity) : result_scope.
Local Open Scope result_scope.

Definition raises {A : Type} (r : result A) : Prop := exists e, r = Raise e.
Definition returns {A : Type} (r : result A) : Prop := exists a, r = Ok a.

(** ** The pandas layer *)

Module Pandas.

(** A record is one row: its cells in header order. *)
Abbreviation record := (list cell).

(** A frame: the header and the records in index order.  Column labels are
    distinct strings, as [read_excel] delivers them from a header row of
    texts (a header cell that is a number or a date is not modelled). *)
Record DataFrame : Type := mkDataFrame {
  columns : list string;
  rows : list record
}.

Abbreviation Series := (list cell).

(** [len(df)] *)
Definition len (df : DataFrame) : nat := length (rows df).

(** [Index.get_loc]: position of a label in the header. *)
Fixpoint get_loc (label : string) (cols : list string) : option nat :=
  match cols with
  | [] => None
  | c :: cols' =>
      if String.eqb label c then Some O
      else option_map S (get_loc label cols')
  end.

(** [label in df.columns] *)
Definition has_column (df : DataFrame) (label : string) : bool :=
  match get_loc label (columns df) with Some _ => true | None => false end.

(** The cell of a record at a position; a short row reads as missing. *)
Definition iat (i : nat) (r : record) : cell := nth i r NA.

(** [df[label]]: the column as a Series, or [KeyError]. *)
Definition getitem (df : DataFrame) (label : string) : result Series :=
  match get_loc label (columns df) with
  | Some i => Ok (map (iat i) (rows df))
  | None => Raise (KeyError (Str label))
  end.

(** Keeping the positions where a boolean mask is true. *)
Fixpoint select {A : Type} (mask : list bool) (l : list A) : list A :=
  match mask, l with
  | b :: mask', x :: l' =>
      if b then x :: select mask' l' else select mask' l'
  | _, _ => []
  end.

(** [df[mask]]: boolean indexing; header unchanged, rows in order. *)
Definition getitem_mask (df : DataFrame) (mask : list bool) : DataFrame :=
  {| columns := columns df; rows := select mask (rows df) |}.

Definition timestamp_eqb (a b : Timestamp) : bool :=
  Z.eqb (ts_date a) (ts_date b) && Z.eqb (ts_time a) (ts_time b).

(** Elementwise [==] of a cell with a scalar: a missing cell equals
    nothing, values of different types are unequal. *)
Definition py_eq (c v : cell) : bool :=
  match c, v with
  | Num x, Num y => F64.eqb x y
  | Str s, Str t => String.eqb s t
  | Stamp a, Stamp b => timestamp_eqb a b
  | _, _ => false
  end.

(** [series == v] *)
Definition series_eq (s : Series) (v : cell) : list bool :=
  map (fun c => py_eq c v) s.

(** The dtype of a column is read off its cells: a column of timestamps
    and missing values is datetime64. *)
Definition is_datetimelike (c : cell) : bool :=
  match c with
  | NA | Stamp _ => true
  | _ => false
  end.

(** [series.dt.date]: the calendar date of every timestamp, NaT staying
    missing; [AttributeError] when the column is not datetime64. *)
Definition dt_date (s : Series) : result (list (option date)) :=
  if forallb is_datetimelike s
  then Ok (map (fun c => match c with Stamp t => Some (ts_date t) | _ => None end) s)
  else Raise AttributeError.

(** [dates >= d] and [dates <= d] on an object column of dates: a missing
    entry compares false. *)
Definition date_ge (o : option date) (d : date) : bool :=
  match o with Some x => Z.leb d x | None => false end.

Definition date_le (o : option date) (d : date) : bool :=
  match o with Some x => Z.leb x d | None => false end.

Definition series_ge (s : list (option date)) (d : date) : list bool :=
  map (fun o => date_ge o d) s.

Definition series_le (s : list (option date)) (d : date) : list bool :=
  map (fun o => date_le o d) s.

(** [mask1 & mask2] *)
Fixpoint mask_and (m1 m2 : list bool) : list bool :=
  match m1, m2 with
  | a :: m1', b :: m2' => (a && b) :: mask_and m1' m2'
  | _, _ => []
  end.

(** *** Counting values *)

Definition notna (c : cell) : bool := negb (isna c).

(** [series.dropna()] *)
Definition dropna (s : Series) : Series := List.filter notna s.

(** The distinct values of a column in the order they are first met. *)
Fixpoint unique (s : Series) : list cell :=
  match s with
  | [] => []
  | c :: s' => c :: List.filter (fun d => negb (py_eq d c)) (unique s')
  end.

Definition count (v : cell) (s : Series) : nat :=
  length (List.filter (fun c => py_eq c v) s).

(** Insertion by decreasing count; among equal counts the value met
    first stays first (pandas does not promise an order among ties, and
    nothing below depends on it). *)
Fixpoint insert_by_count (p : cell * nat) (l : list (cell * nat))
  : list (cell * nat) :=
  match l with
  | [] => [p]
  | q :: l' =>
      if Nat.ltb (snd p) (snd q) then q :: insert_by_count p l'
      else p :: q :: l'
  end.

(** [series.value_counts()]: the count of each value that is not missing,
    most frequent first. *)
Definition value_counts (s : Series) : list (cell * nat) :=
  let s' := dropna s in
  fold_right insert_by_count [] (map (fun v => (v, count v s')) (unique s')).

(** [counts.index[0]] and [counts.iloc[0]] *)
Definition index0 (vc : list (cell * nat)) : result cell :=
  match vc with
  | [] => Raise IndexError
  | p :: _ => Ok (fst p)
  end.

Definition iloc0 (vc : list (cell * nat)) : result nat :=
  match vc with
  | [] => Raise IndexError
  | p :: _ => Ok (snd p)
  end.

(** [counts[v]]: lookup by label. *)
Fixpoint loc (vc : list (cell * nat)) (v : cell) : result nat :=
  match vc with
  | [] => Raise (KeyError v)
  | p :: vc' => if py_eq (fst p) v then Ok (snd p) else loc vc' v
  end.

(** The order [sort] uses inside one type. *)
Definition cell_leb (a b : cell) : bool :=
  match a, b with
  | Num x, Num y => F64.leb x y
  | Str s, Str t => String.leb s t
  | Stamp u, Stamp v =>
      Z.ltb (ts_date u) (ts_date v)
      || (Z.eqb (ts_date u) (ts_date v) && Z.leb (ts_time u) (ts_time v))
  | _, _ => true
  end.

Fixpoint insert_sorted (c : cell) (l : list cell) : list cell :=
  match l with
  | [] => [c]
  | d :: l' => if cell_leb c d then c :: d :: l' else d :: insert_sorted c l'
  end.

Definition kind (c : cell) : nat :=
  match c with NA => 0 | Num _ => 1 | Str _ => 2 | Stamp _ => 3 end%nat.

Definition same_kind (l : list cell) : bool :=
  match l with
  | [] => true
  | c :: l' => forallb (fun d => Nat.eqb (kind d) (kind c)) l'
  end.

(** [series.mode()]: the values of highest count, sorted when they can be
    compared (values of mixed types are left in the order met); its index
    is 0, 1, ... *)
Definition mode (s : Series) : list cell :=
  let vc := value_counts s in
  match vc with
  | [] => []
  | p :: _ =>
      let modes := map fst (List.filter (fun q => Nat.eqb (snd q) (snd p)) vc) in
      if same_kind modes then fold_right insert_sorted [] modes else modes
  end.

(** [modes[0]]: lookup of label 0 in the result of [mode]. *)
Definition mode0 (modes : list cell) : result cell :=
  match modes with
  | [] => Raise (KeyError (Num (F64.of_Z 0)))
  | v :: _ => Ok v
  end.

(** *** Numeric columns *)

(** The float a cell holds in a numeric column; arithmetic on a string or
    a timestamp is a [TypeError]. *)
Definition to_float (c : cell) : result float :=
  match c with
  | NA => Ok F64.nan
  | Num x => Ok x
  | _ => Raise TypeError
  end.

Fixpoint floats (s : Series) : result (list float) :=
  match s with
  | [] => Ok []
  | c :: s' =>
      x <- to_float c ;;
      xs <- floats s' ;;
      Ok (x :: xs)
  end.

Definition not_nan (x : float) : bool := negb (F64.is_nan x).

(** [series.sum()] and [series.mean()] skip NaN (skipna=True); infinities
    are ordinary values.  The values are added from the first to the last;
    the mean of no value is NaN (0.0 / 0). *)
Definition nansum (xs : list float) : float :=
  fold_left F64.add (List.filter not_nan xs) F64.zero.

Definition nanmean (xs : list float) : float :=
  F64.div (nansum xs) (F64.of_nat (length (List.filter not_nan xs))).

Definition sum (s : Series) : result float :=
  xs <- floats s ;; Ok (nansum xs).

Definition mean (s : Series) : result float :=
  xs <- floats s ;; Ok (nanmean xs).

(** [a / b] on two float columns of one frame, element by element. *)
Fixpoint div_floats (xs ys : list float) : list float :=
  match xs, ys with
  | x :: xs', y :: ys' => F64.div x y :: div_floats xs' ys'
  | _, _ => []
  end.

Definition series_div (a b : Series) : result (list float) :=
  xs <- floats a ;;
  ys <- floats b ;;
  Ok (div_floats xs ys).

(** [count / total * 100] *)
Definition percent (cnt total : nat) : float :=
  F64.mul (F64.div (F64.of_nat cnt) (F64.of_nat total)) (F64.of_Z 100).

(** [series.min()] and [series.max()] on a datetime column: NaT is
    skipped; [None] when the column holds no timestamp. *)
Definition ts_ltb (a b : Timestamp) : bool :=
  Z.ltb (ts_date a) (ts_date b)
  || (Z.eqb (ts_date a) (ts_date b) && Z.ltb (ts_time a) (ts_time b)).

Fixpoint series_min (s : Series) : option Timestamp :=
  match s with
  | [] => None
  | Stamp t :: s' =>
      match series_min s' with
      | Some m => Some (if ts_ltb m t then m else t)
      | None => Some t
      end
  | _ :: s' => series_min s'
  end.

Fixpoint series_max (s : Series) : option Timestamp :=
  match s with
  | [] => None
  | Stamp t :: s' =>
      match series_max s' with
      | Some m => Some (if ts_ltb t m then m else t)
      | None => Some t
      end
  | _ :: s' => series_max s'
  end.

(** A cell of a numeric column: a number or a missing value. *)
Definition is_number (c : cell) : bool :=
  match c with
  | NA | Num _ => true
  | _ => false
  end.

Definition is_text (c : cell) : bool :=
  match c with
  | Str _ => true
  | _ => false
  end.

(** [series.min().date()] and [series.max().date()], [extreme] being
    [series_min] or [series_max].  A column of timestamps and missing
    values that holds a timestamp gives the calendar day of the extreme.
    Nothing else gives a date: cells of different kinds do not compare
    ([TypeError]); the least of a column of numbers, or of texts, is a
    number or a text and has no [.date()] ([AttributeError]); nor has the
    NaN that a column without any value gives when it was read without
    dates, as in a sheet that has only its header.  (A datetime64 column
    whose dates are all missing gives NaT instead; the cells do not tell
    the two apart, and no theorem below rests on what a column without a
    value gives.) *)
Definition extreme_date (extreme : Series -> option Timestamp) (s : Series)
  : result date :=
  if forallb is_datetimelike s then
    match extreme s with
    | Some t => Ok (ts_date t)
    | None => Raise AttributeError
    end
  else if forallb is_number s || forallb is_text s then Raise AttributeError
  else Raise TypeError.

(** *** Building and updating frames *)

(** [pd.DataFrame(data)] for a dict of columns of one length: the keys
    become the header in order, row [k] takes the [k]-th value of each. *)
Definition from_dict (data : list (string * Series)) : DataFrame :=
  let n := match data with [] => O | col :: _ => length (snd col) end in
  {| columns := map fst data;
     rows := map (fun k => map (fun col => nth k (snd col) NA) data) (seq 0 n) |}.

(** Writing the values of a Series into position [i] of the rows. *)
Fixpoint assign (i : nat) (s : Series) (rs : list record) : list record :=
  match s, rs with
  | c :: s', r :: rs' => <[i := c]> r :: assign i s' rs'
  | _, _ => rs
  end.

(** [df[label] = s] for a Series of the frame's length: the column is
    replaced, or added last when the label is new. *)
Definition setitem (df : DataFrame) (label : string) (s : Series) : DataFrame :=
  match get_loc label (columns df) with
  | Some i => {| columns := columns df; rows := assign i s (rows df) |}
  | None =>
      {| columns := columns df ++ [label];
         rows := assign (length (columns df)) s (map (fun r => r ++ [NA]) (rows df)) |}
  end.

(** [series.fillna(v)] *)
Definition fillna (v : cell) (s : Series) : Series :=
  map (fun c => if isna c then v else c) s.

(** A [for] loop over labels whose body may raise. *)
Fixpoint for_each {A S : Type} (body : S -> A -> result S) (l : list A) (st : S)
  : result S :=
  match l with
  | [] => Ok st
  | a :: l' => st' <- body st a ;; for_each body l' st'
  end.

(** [series.nunique()]: the number of distinct values that are not
    missing. *)
Definition nunique (s : Series) : nat := length (unique (dropna s)).

(** [df.head(n)]: the first [n] records. *)
Definition head (n : nat) (df : DataFrame) : DataFrame :=
  {| columns := columns df; rows := firstn n (rows df) |}.

(** [series.unique()]: the distinct values in the order they are met, the
    missing ones counting as one value. *)
Definition same_value (c d : cell) : bool :=
  (isna c && isna d) || py_eq c d.

Fixpoint series_unique (s : Series) : list cell :=
  match s with
  | [] => []
  | c :: s' => c :: List.filter (fun d => negb (same_value d c)) (series_unique s')
  end.

(** [sub in s] on strings. *)
Fixpoint contains (sub s : string) : bool :=
  String.prefix sub s
  || match s with
     | EmptyString => false
     | String _ s' => contains sub s'
     end.

End Pandas.
Import Pandas.

(** ** What the scripts take from outside

    Parsing of cells, the Excel reader and numpy's generator are library
    code.  They enter as the fields of one record; nothing is assumed about
    them beyond their types. *)

Inductive source : Type :=
| FilePath (path : string)
| UploadedFile (content : string).

Record Externals : Type := mkExternals {
  (** [pd.read_excel] *)
  read_excel : source -> result DataFrame;
  (** what [pd.to_datetime] makes of a string, and of a number *)
  parse_datetime : string -> option Timestamp;
  datetime_of_number : float -> option Timestamp;
  (** what [pd.to_numeric] makes of a string, and of a timestamp *)
  parse_number : string -> option float;
  number_of_datetime : Timestamp -> option float;
  (** [np.random]: the generator state and the draws that thread it *)
  rng : Type;
  seed : Z -> rng;
  choice : rng -> list cell -> nat -> list cell * rng;
  uniform : rng -> Z -> Z -> nat -> list float * rng;
  randint : rng -> Z -> Z -> Z * rng;
  (** [ndarray.round(1)] on one value *)
  round1 : float -> float;
  (** [pd.Timestamp(s)], [pd.date_range(a, b, periods)], [pd.date_range(a, b)] *)
  timestamp : string -> Timestamp;
  date_range_periods : Timestamp -> Timestamp -> nat -> list Timestamp;
  date_range : Timestamp -> Timestamp -> list Timestamp
}.

(** Messages the loaders print or display. *)
Inductive message : Type :=
| DataLoaded (nrows ncols : nat)
| ErrorLoading (e : exn)
| SampleDataCreated
| UsingSampleData.

(** [df.shape] *)
Definition shape (df : DataFrame) : nat * nat :=
  (len df, length (columns df)).

(** [pd.to_datetime(series, errors='coerce')], cell by cell: timestamps and
    missing values stay, what cannot be parsed becomes NaT. *)
Definition to_datetime_cell (ext : Externals) (c : cell) : cell :=
  match c with
  | NA => NA
  | Stamp t => Stamp t
  | Str s => match parse_datetime ext s with Some t => Stamp t | None => NA end
  | Num x => match datetime_of_number ext x with Some t => Stamp t | None => NA end
  end.

Definition to_datetime (ext : Externals) (s : Series) : Series :=
  map (to_datetime_cell ext) s.

(** [pd.to_numeric(series, errors='coerce')], cell by cell: numbers stay,
    what cannot be parsed becomes NaN. *)
Definition to_numeric_cell (ext : Externals) (c : cell) : cell :=
  match c with
  | NA => NA
  | Num x => Num x
  | Str s => match parse_number ext s with Some x => Num x | None => NA end
  | Stamp t => match number_of_datetime ext t with Some x => Num x | None => NA end
  end.

Definition to_numeric (ext : Externals) (s : Series) : Series :=
  map (to_numeric_cell ext) s.

(** ** Insight statements *)

(** One statement of [generate_insights]; the f-string that renders it
    formats exactly the values carried here. *)
Inductive insight : Type :=
| TotalItems (total_items : nat)
| MostCommonWricef (v : cell) (cnt : nat) (pct : float)
| LargestImplementation (v : cell) (cnt : nat) (pct : float)
| AverageAbapEffort (avg : float)
| TotalAbapEffort (total : float)
| MostCommonComplexity (v : cell) (cnt : nat) (pct : float)
| MostCommonPriority (v : cell) (cnt : nat) (pct : float)
| MostCommonStage (v : cell) (cnt : nat) (pct : float)
| EffortEfficiency (ratio : float).

(** ** [wricef_visualizer.py]: class [WRICEFDataVisualizer] *)

Module Visualizer.

Definition implementations : list cell :=
  [Str "Catalyst"; Str "Goldilocks (ANZ)"; Str "EWM"; Str "Supernova"].
Definition wricef_types : list cell :=
  [Str "W"; Str "R"; Str "I"; Str "C"; Str "E"; Str "F"].
Definition complexities : list cell :=
  [Str "Low"; Str "Medium"; Str "High"; Str "Very High"].
Definition priorities : list cell :=
  [Str "1 - High"; Str "2 - Medium"; Str "3 - Low"].
Definition stages : list cell :=
  [Str "06 - Dev Completed"; Str "04 - Dev in progress";
   Str "16 - FS Review in Progress"; Str "13 - Deferred";
   Str "15 - No Development Required"].

Definition n_records : nat := 500.

(** [create_sample_data]: the frame built from the generator seeded
    with 42, the draws taken in the order of the dict literal. *)
Definition create_sample_data (ext : Externals) : DataFrame :=
  let g := seed ext 42 in
  let '(implementation, g) := choice ext g implementations n_records in
  let '(wricef_type, g) := choice ext g wricef_types n_records in
  let '(complexity, g) := choice ext g complexities n_records in
  let '(priority, g) := choice ext g priorities n_records in
  let '(stage, g) := choice ext g stages n_records in
  let '(abap_forecast, g) := uniform ext g 10 200 n_records in
  let '(abap_actual, g) := uniform ext g 10 200 n_records in
  let '(pi_forecast, g) := uniform ext g 5 100 n_records in
  let '(pi_actual, g) := uniform ext g 5 100 n_records in
  let planned :=
    date_range_periods ext (timestamp ext "2022-01-01")
      (timestamp ext "2024-12-31") n_records in
  let delivered :=
    date_range_periods ext (timestamp ext "2022-01-01")
      (timestamp ext "2024-12-31") n_records in
  from_dict
    [("Implementation", implementation);
     ("WRICEF Type", wricef_type);
     ("Complexity", complexity);
     ("Priority of Delivery", priority);
     ("Stage", stage);
     ("ABAP Effort Forecast (hrs)", map Num abap_forecast);
     ("ABAP Actual Effort (hrs)", map Num abap_actual);
     ("PI Effort Forecast (hrs)", map Num pi_forecast);
     ("PI Actual Effort (hrs)", map Num pi_actual);
     ("FSD Planned Del Date", map Stamp planned);
     ("Dev Actual Delivery Date", map Stamp delivered)].

(** [load_data]: the frame stored in [self.df] and the lines printed.
    Every exception of [read_excel] is caught. *)
Definition load_data (ext : Externals) (file_path : string)
  : DataFrame * list message :=
  match read_excel ext (FilePath file_path) with
  | Ok df => (df, [DataLoaded (fst (shape df)) (snd (shape df))])
  | Raise e => (create_sample_data ext, [ErrorLoading e; SampleDataCreated])
  end.

Definition effort_cols : list string :=
  ["ABAP Effort Forecast (hrs)"; "ABAP Actual Effort (hrs)";
   "PI Effort Forecast (hrs)"; "PI Actual Effort (hrs)"].

(** [prepare_data] *)
Definition prepare_data (ext : Externals) (df : DataFrame) : result DataFrame :=
  (* Convert date columns *)
  let date_columns := List.filter (contains "Date") (columns df) in
  df <- for_each
          (fun df col =>
             if has_column df col then
               s <- getitem df col ;;
               Ok (setitem df col (to_datetime ext s))
             else Ok df)
          date_columns df ;;
  (* Fill missing effort values *)
  for_each
    (fun df col =>
       if has_column df col then
         s <- getitem df col ;;
         Ok (setitem df col (fillna (Num (F64.of_Z 0)) (to_numeric ext s)))
       else Ok df)
    effort_cols df.

(** [generate_insights]: the list the method returns, or the exception
    that leaves it. *)
Definition generate_insights (df : DataFrame) : result (list insight) :=
  let total_items := len df in
  let insights := [TotalItems total_items] in
  (* Most common WRICEF type *)
  wricef <- getitem df "WRICEF Type" ;;
  most_common_wricef <- mode0 (mode wricef) ;;
  wricef_count <- loc (value_counts wricef) most_common_wricef ;;
  let insights := insights ++
    [MostCommonWricef most_common_wricef wricef_count
       (percent wricef_count total_items)] in
  (* Implementation analysis *)
  impl <- getitem df "Implementation" ;;
  let impl_counts := value_counts impl in
  impl_top <- index0 impl_counts ;;
  impl_n <- iloc0 impl_counts ;;
  let insights := insights ++
    [LargestImplementation impl_top impl_n (percent impl_n total_items)] in
  (* Effort analysis *)
  insights <-
    (if has_column df "ABAP Effort Forecast (hrs)" then
       effort <- getitem df "ABAP Effort Forecast (hrs)" ;;
       avg_abap_effort <- mean effort ;;
       total_abap_effort <- sum effort ;;
       Ok (insights ++ [AverageAbapEffort avg_abap_effort;
                        TotalAbapEffort total_abap_effort])
     else Ok insights) ;;
  (* Complexity analysis *)
  complexity <- getitem df "Complexity" ;;
  let complexity_counts := value_counts complexity in
  complexity_top <- index0 complexity_counts ;;
  complexity_n <- iloc0 complexity_counts ;;
  let insights := insights ++
    [MostCommonComplexity complexity_top complexity_n
       (percent complexity_n total_items)] in
  (* Priority analysis *)
  priority <- getitem df "Priority of Delivery" ;;
  let priority_counts := value_counts priority in
  priority_top <- index0 priority_counts ;;
  priority_n <- iloc0 priority_counts ;;
  let insights := insights ++
    [MostCommonPriority priority_top priority_n
       (percent priority_n total_items)] in
  (* Stage analysis *)
  stage <- getitem df "Stage" ;;
  let stage_counts := value_counts stage in
  stage_top <- index0 stage_counts ;;
  stage_n <- iloc0 stage_counts ;;
  let insights := insights ++
    [MostCommonStage stage_top stage_n (percent stage_n total_items)] in
  Ok insights.

End Visualizer.

(** ** What the dashboard shows *)

(** What [data_overview] puts on the page: the four metric cards and the
    sample table. *)
Record overview : Type := mkOverview {
  total_records : nat;
  n_implementations : nat;
  n_wricef_types : nat;
  total_effort : float;
  data_sample : DataFrame
}.

(** What the sidebar of [create_filters] is drawn with: the choices of the
    four select boxes, and the default value, the least and the greatest
    date of the date picker. *)
Record sidebar_widgets : Type := mkSidebar {
  implementation_choices : list cell;
  wricef_choices : list cell;
  complexity_choices : list cell;
  priority_choices : list cell;
  value : list date;
  min_value : date;
  max_value : date
}.

(** What one run of [main] puts below the sidebar: the page of
    [data_overview], the statements of [generate_insights], one of the five
    chart pages (drawn by plotly from the frame given), or nothing. *)
Inductive rendered : Type :=
| Overview (o : overview)
| Insights (statements : list insight)
| Charts (page : string) (df : DataFrame)
| Nothing.

(** ** [streamlit_dashboard.py]: class [StreamlitWRICEFDashboard] *)

Module Dashboard.

Definition implementations : list cell :=
  [Str "Catalyst"; Str "Goldilocks (ANZ)"; Str "EWM"; Str "Supernova"].
Definition wricef_types : list cell :=
  [Str "W"; Str "R"; Str "I"; Str "C"; Str "E"; Str "F"].
Definition complexities : list cell :=
  [Str "Low"; Str "Medium"; Str "High"; Str "Very High"].
Definition priorities : list cell :=
  [Str "1 - High"; Str "2 - Medium"; Str "3 - Low"].
Definition stages : list cell :=
  [Str "06 - Dev Completed"; Str "04 - Dev in progress";
   Str "16 - FS Review in Progress"; Str "13 - Deferred";
   Str "15 - No Development Required"].
Definition process_areas : list cell :=
  [Str "STS"; Str "RTR"; Str "MDM"; Str "PTM"; Str "PTP"; Str "LEX";
   Str "OTC"; Str "EWM"].

Definition n_records : nat := 500.

Definition str_of_nat (n : nat) : string :=
  NilZero.string_of_uint (Nat.to_uint n).

Definition str_of_Z (z : Z) : string :=
  NilZero.string_of_int (Z.to_int z).

(** [[f"{prefix}{np.random.randint(1, high)}" for _ in range(n)]] *)
Fixpoint random_names (ext : Externals) (prefix : string) (high : Z)
    (n : nat) (g : rng ext) : list cell * rng ext :=
  match n with
  | O => ([], g)
  | S n' =>
      let '(k, g) := randint ext g 1 high in
      let '(rest, g) := random_names ext prefix high n' g in
      (Str (prefix ++ str_of_Z k)%string :: rest, g)
  end.

(** [create_sample_data]: as in the visualizer, with more columns, the
    efforts rounded to one decimal and the dates drawn from the days of
    the window ([to_datetime] leaves the drawn timestamps as they are). *)
Definition create_sample_data (ext : Externals) : DataFrame :=
  let g := seed ext 42 in
  let start_date := timestamp ext "2022-01-01" in
  let end_date := timestamp ext "2024-12-31" in
  let '(implementation, g) := choice ext g implementations n_records in
  let project_name :=
    map (fun i => Str ("Project " ++ str_of_nat (i + 1))%string) (seq 0 n_records) in
  let '(wricef_type, g) := choice ext g wricef_types n_records in
  let '(complexity, g) := choice ext g complexities n_records in
  let '(priority, g) := choice ext g priorities n_records in
  let '(stage, g) := choice ext g stages n_records in
  let '(process_area, g) := choice ext g process_areas n_records in
  let '(abap_forecast, g) := uniform ext g 10 200 n_records in
  let '(abap_actual, g) := uniform ext g 10 200 n_records in
  let '(pi_forecast, g) := uniform ext g 5 100 n_records in
  let '(pi_actual, g) := uniform ext g 5 100 n_records in
  let '(planned, g) :=
    choice ext g (map Stamp (date_range ext start_date end_date)) n_records in
  let '(delivered, g) :=
    choice ext g (map Stamp (date_range ext start_date end_date)) n_records in
  let '(owner, g) := random_names ext "Owner " 20 n_records g in
  let '(lead, g) := random_names ext "Lead " 15 n_records g in
  from_dict
    [("Implementation", implementation);
     ("Project Name", project_name);
     ("WRICEF Type", wricef_type);
     ("Complexity", complexity);
     ("Priority of Delivery", priority);
     ("Stage", stage);
     ("Process Area", process_area);
     ("ABAP Effort Forecast (hrs)", map (fun x => Num (round1 ext x)) abap_forecast);
     ("ABAP Actual Effort (hrs)", map (fun x => Num (round1 ext x)) abap_actual);
     ("PI Effort Forecast (hrs)", map (fun x => Num (round1 ext x)) pi_forecast);
     ("PI Actual Effort (hrs)", map (fun x => Num (round1 ext x)) pi_actual);
     ("FSD Planned Del Date", to_datetime ext planned);
     ("Dev Actual Delivery Date", to_datetime ext delivered);
     ("Functional Owner", owner);
     ("Dev Lead", lead)].

(** [load_data]: [self.df] after the call, the boolean returned and what
    is displayed.  [self_df] is [self.df] before the call ([None] on a
    fresh dashboard). *)
Definition load_data (ext : Externals) (self_df : option DataFrame)
    (uploaded_file : option string)
  : option DataFrame * bool * list message :=
  match uploaded_file with
  | Some f =>
      match read_excel ext (UploadedFile f) with
      | Ok df => (Some df, true, [DataLoaded (fst (shape df)) (snd (shape df))])
      | Raise e => (self_df, false, [ErrorLoading e])
      end
  | None =>
      (* Create sample data *)
      (Some (create_sample_data ext), true, [UsingSampleData])
  end.

(** [data_overview]: the values displayed when the method runs to its end,
    or the exception that leaves it (the cards computed before the
    exception are then already on the page). *)
Definition data_overview (df : DataFrame) : result overview :=
  let total := len df in
  impl <- getitem df "Implementation" ;;
  let implementations := nunique impl in
  wricef <- getitem df "WRICEF Type" ;;
  let wricef_types := nunique wricef in
  effort <- getitem df "ABAP Effort Forecast (hrs)" ;;
  total_effort <- sum effort ;;
  (* Data sample *)
  Ok (mkOverview total implementations wricef_types total_effort (head 10 df)).

(** [generate_insights]: the statements the method displays, or the
    exception that leaves it before anything is displayed. *)
Definition generate_insights (df : DataFrame) : result (list insight) :=
  let total_items := len df in
  let insights := [TotalItems total_items] in
  (* Most common WRICEF type *)
  wricef <- getitem df "WRICEF Type" ;;
  most_common_wricef <- mode0 (mode wricef) ;;
  wricef_count <- loc (value_counts wricef) most_common_wricef ;;
  let insights := insights ++
    [MostCommonWricef most_common_wricef wricef_count
       (percent wricef_count total_items)] in
  (* Implementation analysis *)
  impl <- getitem df "Implementation" ;;
  let impl_counts := value_counts impl in
  impl_top <- index0 impl_counts ;;
  impl_n <- iloc0 impl_counts ;;
  let insights := insights ++
    [LargestImplementation impl_top impl_n (percent impl_n total_items)] in
  (* Effort analysis *)
  effort <- getitem df "ABAP Effort Forecast (hrs)" ;;
  avg_abap_effort <- mean effort ;;
  total_abap_effort <- sum effort ;;
  let insights := insights ++
    [AverageAbapEffort avg_abap_effort; TotalAbapEffort total_abap_effort] in
  (* Complexity analysis *)
  complexity <- getitem df "Complexity" ;;
  let complexity_counts := value_counts complexity in
  complexity_top <- index0 complexity_counts ;;
  complexity_n <- iloc0 complexity_counts ;;
  let insights := insights ++
    [MostCommonComplexity complexity_top complexity_n
       (percent complexity_n total_items)] in
  (* Priority analysis *)
  priority <- getitem df "Priority of Delivery" ;;
  let priority_counts := value_counts priority in
  priority_top <- index0 priority_counts ;;
  priority_n <- iloc0 priority_counts ;;
  let insights := insights ++
    [MostCommonPriority priority_top priority_n
       (percent priority_n total_items)] in
  (* Effort efficiency *)
  actual <- getitem df "ABAP Actual Effort (hrs)" ;;
  forecast <- getitem df "ABAP Effort Forecast (hrs)" ;;
  ratios <- series_div actual forecast ;;
  let effort_efficiency := nanmean ratios in
  let insights := insights ++ [EffortEfficiency effort_efficiency] in
  Ok insights.

(** The range the date picker of [create_filters] starts from:
    [[min().date(), max().date()]] of the planned dates. *)
Definition default_date_range (s : Series) : option (list date) :=
  match series_min s, series_max s with
  | Some lo, Some hi => Some [ts_date lo; ts_date hi]
  | _, _ => None
  end.

(** The sentinel test [selected != 'All'], negated. *)
Definition is_all (selected : cell) : bool :=
  match selected with
  | Str s => String.eqb s "All"
  | _ => false
  end.

(** One categorical step of [create_filters]:
    [if selected != 'All': df = df[df[label] == selected]]. *)
Definition filter_equal (label : string) (selected : cell)
    (filtered_df : DataFrame) : result DataFrame :=
  if is_all selected then Ok filtered_df
  else
    s <- getitem filtered_df label ;;
    Ok (getitem_mask filtered_df (series_eq s selected)).

(** The date step: with exactly two bounds, keep the rows whose planned
    date lies between them as a calendar date. *)
Definition filter_dates (date_range : list date) (filtered_df : DataFrame)
  : result DataFrame :=
  match date_range with
  | [start_date; end_date] =>
      s <- getitem filtered_df "FSD Planned Del Date" ;;
      d1 <- dt_date s ;;
      s' <- getitem filtered_df "FSD Planned Del Date" ;;
      d2 <- dt_date s' ;;
      Ok (getitem_mask filtered_df
            (mask_and (series_ge d1 start_date) (series_le d2 end_date)))
  | _ => Ok filtered_df
  end.

(** [create_filters], from "Apply filters" on.  The sidebar widgets above
    that line are Streamlit input: what they return (four selections and
    the tuple of the date picker) are the arguments here.  The steps work
    on a copy of [self.df], which is the value [df] itself.  The lines
    above, which can raise before any filter is applied, are [sidebar]
    below, and the method from its first line is [create_filters_method]. *)
Definition create_filters (df : DataFrame)
    (selected_impl selected_wricef selected_complexity selected_priority : cell)
    (date_range : list date) : result DataFrame :=
  let filtered_df := df in
  filtered_df <- filter_equal "Implementation" selected_impl filtered_df ;;
  filtered_df <- filter_equal "WRICEF Type" selected_wricef filtered_df ;;
  filtered_df <- filter_equal "Complexity" selected_complexity filtered_df ;;
  filtered_df <- filter_equal "Priority of Delivery" selected_priority filtered_df ;;
  filtered_df <- filter_dates date_range filtered_df ;;
  Ok filtered_df.

(** The choices of one selectbox of [create_filters]:
    [['All'] + list(self.df[label].unique())]. *)
Definition options (df : DataFrame) (label : string) : result (list cell) :=
  s <- getitem df label ;;
  Ok (Str "All" :: series_unique s).

(** The sidebar of [create_filters], the lines above "Apply filters".  The
    four select boxes are given their choices and the date picker the
    least and the greatest planned date, whatever is selected afterwards.
    What the widgets return is Streamlit input; what pandas computes for
    them is here, since it can raise.  The four arguments of [date_input]
    are evaluated one after the other. *)
Definition sidebar (df : DataFrame) : result sidebar_widgets :=
  (* Implementation filter *)
  implementations <- options df "Implementation" ;;
  (* WRICEF Type filter *)
  wricef_types <- options df "WRICEF Type" ;;
  (* Complexity filter *)
  complexities <- options df "Complexity" ;;
  (* Priority filter *)
  priorities <- options df "Priority of Delivery" ;;
  (* Date range filter *)
  s <- getitem df "FSD Planned Del Date" ;;
  value_min <- extreme_date series_min s ;;
  s <- getitem df "FSD Planned Del Date" ;;
  value_max <- extreme_date series_max s ;;
  s <- getitem df "FSD Planned Del Date" ;;
  lo <- extreme_date series_min s ;;
  s <- getitem df "FSD Planned Del Date" ;;
  hi <- extreme_date series_max s ;;
  Ok (mkSidebar implementations wricef_types complexities priorities
        [value_min; value_max] lo hi).

(** [create_filters], the whole method: the sidebar is drawn, then the
    filters are applied to the selections and the date tuple its widgets
    returned. *)
Definition create_filters_method (df : DataFrame)
    (selected_impl selected_wricef selected_complexity selected_priority : cell)
    (date_range : list date) : result DataFrame :=
  widgets <- sidebar df ;;
  create_filters df selected_impl selected_wricef selected_complexity
    selected_priority date_range.

(** The page dispatch of [main] on the filtered frame. *)
Definition show_page (page : string) (df : DataFrame) : result rendered :=
  if String.eqb page "Data Overview" then
    o <- data_overview df ;; Ok (Overview o)
  else if String.eqb page "Distribution Analysis" then Ok (Charts page df)
  else if String.eqb page "Effort Analysis" then Ok (Charts page df)
  else if String.eqb page "Timeline Analysis" then Ok (Charts page df)
  else if String.eqb page "Advanced Analytics" then Ok (Charts page df)
  else if String.eqb page "Correlation Analysis" then Ok (Charts page df)
  else if String.eqb page "Key Insights" then
    l <- generate_insights df ;; Ok (Insights l)
  else Ok Nothing.

(** [main]: the messages of the loader and what is rendered after them.
    The file of the uploader, the sidebar selections and the page chosen
    are Streamlit input and enter as arguments; the dashboard is fresh
    ([self.df] is [None]).  The filtered frame replaces [self.df] before
    the page is shown. *)
Definition main (ext : Externals) (uploaded_file : option string)
    (selected_impl selected_wricef selected_complexity selected_priority : cell)
    (date_range : list date) (page : string)
  : list message * result rendered :=
  let '(self_df, loaded, messages) := load_data ext None uploaded_file in
  if loaded then
    (messages,
     match self_df with
     | Some df =>
         (* Apply filters *)
         df <- create_filters df selected_impl selected_wricef
                 selected_complexity selected_priority date_range ;;
         (* Display selected page *)
         show_page page df
     | None => Raise TypeError
     end)
  else (messages, Ok Nothing).

End Dashboard.

(** ** Reading a frame record by record *)

(** The cell a record has under a label of the header. *)
Definition field (cols : list string) (label : string) (r : record) : cell :=
  match get_loc label cols with
  | Some i => iat i r
  | None => NA
  end.

(** What one categorical selection asks of a record. *)
Definition selected_by (cols : list string) (label : string) (selected : cell)
    (r : record) : bool :=
  Dashboard.is_all selected || py_eq (field cols label r) selected.

(** What an active date range asks of a record: a planned date, with its
    calendar day between the bounds. *)
Definition in_date_range (cols : list string) (s e : date) (r : record) : bool :=
  match field cols "FSD Planned Del Date" r with
  | Stamp t => Z.leb s (ts_date t) && Z.leb (ts_date t) e
  | _ => false
  end.

Definition matches_categories (cols : list string)
    (selected_impl selected_wricef selected_complexity selected_priority : cell)
    (r : record) : bool :=
  selected_by cols "Implementation" selected_impl r
  && selected_by cols "WRICEF Type" selected_wricef r
  && selected_by cols "Complexity" selected_complexity r
  && selected_by cols "Priority of Delivery" selected_priority r.

(** Every record has one cell per column. *)
Definition rectangular (df : DataFrame) : Prop :=
  Forall (fun r : record => length r = length (columns df)) (rows df).

(** What [to_numeric(..., errors='coerce').fillna(0)] does to one cell. *)
Definition coerce_effort (ext : Externals) (c : cell) : cell :=
  let c' := to_numeric_cell ext c in
  if isna c' then Num (F64.of_Z 0) else c'.

(** One column rewritten cell by cell, on the frame and on a record. *)
Definition map_column (f : cell -> cell) (label : string) (df : DataFrame)
  : DataFrame :=
  match get_loc label (columns df) with
  | Some i => {| columns := columns df; rows := map (alter f i) (rows df) |}
  | None => df
  end.

Definition alter_at (cols : list string) (f : cell -> cell) (label : string)
    (r : record) : record :=
  match get_loc label cols with
  | Some i => alter f i r
  | None => r
  end.

(** Whether one of the labels sits at position [p] of the header. *)
Definition touches (cols : list string) (labels : list string) (p : nat) : bool :=
  existsb (fun l => match get_loc l cols with
                    | Some i => Nat.eqb i p
                    | None => false
                    end) labels.

(** What [prepare_data] does to one record of a frame with header [cols]. *)
Definition prepare_record (ext : Externals) (cols : list string) (r : record)
  : record :=
  fold_left (fun r l => alter_at cols (coerce_effort ext) l r)
    Visualizer.effort_cols
    (fold_left (fun r l => alter_at cols (to_datetime_cell ext) l r)
       (List.filter (contains "Date") cols) r).

(** The column is there and holds at least one value that is not missing. *)
Definition has_values (df : DataFrame) (label : string) : Prop :=
  exists s, getitem df label = Ok s /\ dropna s <> [].

(** The columns [generate_insights] reads without asking whether they are
    there: all five in the visualizer, the first four in the dashboard. *)
Definition categorical_columns : list string :=
  ["WRICEF Type"; "Implementation"; "Complexity"; "Priority of Delivery"; "Stage"].

Definition dashboard_categorical_columns : list string :=
  ["WRICEF Type"; "Implementation"; "Complexity"; "Priority of Delivery"].

(** ** The efficiency as the specification words it

    Two readings of "the mean of the actual/forecast ratio", set beside
    the dashboard's own computation: over the records whose forecast is not
    zero, and over all records with every ratio summed and counted. *)

Definition mean_of_all (rs : list float) : float :=
  F64.div (fold_left F64.add rs F64.zero) (F64.of_nat (length rs)).

Definition mean_where_forecast_nonzero (actual forecast : list float) : float :=
  let kept :=
    List.filter (fun p => negb (F64.is_zero (snd p))) (combine actual forecast) in
  mean_of_all (map (fun p => F64.div (fst p) (snd p)) kept).

(** ** What the filter reads and asks *)

(** What the tuple of the date picker asks of a record: the range when it
    has two bounds, nothing otherwise. *)
Definition date_ok (cols : list string) (date_range : list date) (r : record)
  : bool :=
  match date_range with
  | [s; e] => in_date_range cols s e r
  | _ => true
  end.

(** The columns one call of [create_filters] reads, in the order it reads
    them: one per selection that is not the sentinel, and the planned date
    when the tuple has two bounds. *)
Definition needed_columns
    (selected_impl selected_wricef selected_complexity selected_priority : cell)
    (date_range : list date) : list string :=
  (if Dashboard.is_all selected_impl then [] else ["Implementation"])
  ++ (if Dashboard.is_all selected_wricef then [] else ["WRICEF Type"])
  ++ (if Dashboard.is_all selected_complexity then [] else ["Complexity"])
  ++ (if Dashboard.is_all selected_priority then [] else ["Priority of Delivery"])
  ++ match date_range with
     | [_; _] => ["FSD Planned Del Date"]
     | _ => []
     end.

(** The columns the sidebar of [create_filters] reads, in the order it
    reads them, whatever is selected. *)
Definition sidebar_columns : list string :=
  ["Implementation"; "WRICEF Type"; "Complexity"; "Priority of Delivery";
   "FSD Planned Del Date"].

(** One selection is the other, or the sentinel. *)
Definition relaxes (selected' selected : cell) : Prop :=
  selected' = selected \/ Dashboard.is_all selected' = true.

(** One date tuple asks no more than the other: it has not two bounds, or
    its two bounds enclose the other's. *)
Definition encloses (date_range' date_range : list date) : Prop :=
  length date_range' <> 2%nat \/
  exists s' e' s e,
    date_range' = [s'; e'] /\ date_range = [s; e] /\ s' <= s /\ e <= e'.

(** ** What the overview reads *)

(** The columns [data_overview] reads, in the order it reads them. *)
Definition overview_columns : list string :=
  ["Implementation"; "WRICEF Type"; "ABAP Effort Forecast (hrs)"].

(** ** The most frequent value of a column *)

(** [v] occurs [n] times among the values of the column that are not
    missing, and no value occurs more often. *)
Definition most_frequent (s : Series) (v : cell) (n : nat) : Prop :=
  In v (dropna s) /\
  n = count v (dropna s) /\
  forall u, In u (dropna s) -> (count u (dropna s) <= n)%nat.

(** The column a statement speaks of, with the value, the count and the
    percentage it carries. *)
Definition statement_about (i : insight) : option (string * cell * nat * float) :=
  match i with
  | MostCommonWricef v n pct => Some ("WRICEF Type", v, n, pct)
  | LargestImplementation v n pct => Some ("Implementation", v, n, pct)
  | MostCommonComplexity v n pct => Some ("Complexity", v, n, pct)
  | MostCommonPriority v n pct => Some ("Priority of Delivery", v, n, pct)
  | MostCommonStage v n pct => Some ("Stage", v, n, pct)
  | _ => None
  end.

(** ** Instances used to run the definitions *)

(** A library in which no file can be read and nothing parses; the
    generator repeats the first choice and the lower bound. *)
Definition stub_externals : Externals :=
  {| read_excel := fun _ => Raise FileNotFoundError;
     parse_datetime := fun _ => None;
     datetime_of_number := fun _ => None;
     parse_number := fun _ => None;
     number_of_datetime := fun _ => None;
     rng := unit;
     seed := fun _ => tt;
     choice := fun g xs n => (repeat (hd NA xs) n, g);
     uniform := fun g lo hi n => (repeat (F64.of_Z lo) n, g);
     randint := fun g lo hi => (lo, g);
     round1 := fun x => x;
     timestamp := fun _ => mkTimestamp 738000 0;
     date_range_periods := fun a b n => repeat a n;
     date_range := fun a b => [a; b] |}.

Definition example_header : list string :=
  ["Implementation"; "WRICEF Type"; "Complexity"; "Priority of Delivery";
   "Stage"; "ABAP Effort Forecast (hrs)"; "ABAP Actual Effort (hrs)";
   "FSD Planned Del Date"].

Definition example_r1 : record :=
  [Str "EWM"; Str "W"; Str "Low"; Str "1 - High"; Str "04 - Dev in progress";
   Num (F64.of_Z 2); Num (F64.of_Z 3); Stamp (mkTimestamp 738000 5)].

Definition example_r2 : record :=
  [Str "EWM"; Str "R"; Str "High"; Str "1 - High"; Str "06 - Dev Completed";
   Num (F64.of_Z 0); Num (F64.of_Z 0); NA].

Definition example_r3 : record :=
  [Str "Catalyst"; Str "R"; Str "High"; Str "2 - Medium"; Str "06 - Dev Completed";
   Num (F64.of_Z 0); Num (F64.of_Z 5); Stamp (mkTimestamp 738200 0)].

Definition example_df : DataFrame :=
  mkDataFrame example_header [example_r1; example_r2; example_r3].

(** Its two ABAP effort columns. *)
Definition example_actual : list float := [F64.of_Z 3; F64.of_Z 0; F64.of_Z 5].
Definition example_forecast : list float := [F64.of_Z 2; F64.of_Z 0; F64.of_Z 0].

(** A raw sheet with a negative effort, a text that is no number and a
    text in the date column. *)
Definition raw_effort_df : DataFrame :=
  mkDataFrame ["ABAP Effort Forecast (hrs)"; "FSD Planned Del Date"]
    [[Num (F64.of_Z (-5)); Str "soon"];
     [Str "N/A"; NA];
     [Num (F64.of_Z 12); Stamp (mkTimestamp 738000 0)]].

Definition prepared_effort_df : DataFrame :=
  mkDataFrame ["ABAP Effort Forecast (hrs)"; "FSD Planned Del Date"]
    [[Num (F64.of_Z (-5)); NA];
     [Num (F64.of_Z 0); NA];
     [Num (F64.of_Z 12); Stamp (mkTimestamp 738000 0)]].

(** The tracker without its records, without its stage column, and
    without its effort columns. *)
Definition empty_df : DataFrame := mkDataFrame example_header [].

Definition no_stage_df : DataFrame :=
  mkDataFrame
    ["Implementation"; "WRICEF Type"; "Complexity"; "Priority of Delivery";
     "ABAP Effort Forecast (hrs)"]
    [[Str "EWM"; Str "W"; Str "Low"; Str "1 - High"; Num (F64.of_Z 2)];
     [Str "EWM"; Str "R"; Str "High"; Str "1 - High"; Num (F64.of_Z 4)]].

Definition no_effort_df : DataFrame :=
  mkDataFrame
    ["Implementation"; "WRICEF Type"; "Complexity"; "Priority of Delivery";
     "Stage"]
    [[Str "EWM"; Str "W"; Str "Low"; Str "1 - High"; Str "04 - Dev in progress"];
     [Str "EWM"; Str "R"; Str "High"; Str "1 - High"; Str "06 - Dev Completed"]].

(** The first two records of the tracker: one ratio of 3/2, one of 0/0. *)
Definition zero_forecast_df : DataFrame :=
  mkDataFrame example_header [example_r1; example_r2].

(** Two records, the first without a WRICEF type. *)
Definition missing_type_df : DataFrame :=
  mkDataFrame ["Implementation"; "WRICEF Type"]
    [[Str "EWM"; NA]; [Str "Catalyst"; Str "R"]].

(** The first record of the tracker and one whose planned date is a text. *)
Definition text_date_df : DataFrame :=
  mkDataFrame example_header
    [example_r1;
     [Str "EWM"; Str "R"; Str "High"; Str "1 - High"; Str "06 - Dev Completed";
      Num (F64.of_Z 0); Num (F64.of_Z 0); Str "soon"]].

(** The first and the third record of the tracker: every planned date is
    there. *)
Definition dated_df : DataFrame :=
  mkDataFrame example_header [example_r1; example_r3].

(** * Properties *)

(** ** Results *)

Lemma bind_Ok {A B : Type} (r : result A) (k : A -> result B) (b : B) :
  bind r k = Ok b -> exists a, r = Ok a /\ k a = Ok b.
Proof.
  destruct r as [a|e]; simpl; intros H; [exists a; auto | discriminate].
Qed.

Lemma raises_not_returns {A : Type} (r : result A) : raises r -> ~ returns r.
Proof. intros [e He] [a Ha]. congruence. Qed.

Ltac bind_inv H :=
  let a := fresh "a" in
  let Ha := fresh "H" a in
  apply bind_Ok in H; destruct H as (a & Ha & H).

(** ** Boolean indexing *)

Lemma select_map {A : Type} (f : A -> bool) (l : list A) :
  select (map f l) l = List.filter f l.
Proof.
  induction l as [|x l IH]; simpl; [reflexivity|].
  rewrite IH. reflexivity.
Qed.

Lemma select_sublist {A : Type} (mask : list bool) (l : list A) :
  sublist (select mask l) l.
Proof.
  revert mask. induction l as [|x l IH]; intros [|b mask]; simpl;
    try apply sublist_nil_l.
  destruct b; [apply sublist_skip | apply sublist_cons]; apply IH.
Qed.

Lemma filter_sublist {A : Type} (f : A -> bool) (l : list A) :
  sublist (List.filter f l) l.
Proof. rewrite <- select_map. apply select_sublist. Qed.

Lemma filter_all {A : Type} (f : A -> bool) (l : list A) :
  (forall x, f x = true) -> List.filter f l = l.
Proof.
  intros Hf. induction l as [|x l IH]; simpl; [reflexivity|].
  rewrite Hf, IH. reflexivity.
Qed.

Lemma filter_filter {A : Type} (f g : A -> bool) (l : list A) :
  List.filter g (List.filter f l) = List.filter (fun x => f x && g x) l.
Proof.
  induction l as [|x l IH]; simpl; [reflexivity|].
  destruct (f x); simpl; [destruct (g x)|]; rewrite IH; reflexivity.
Qed.

Lemma mask_and_map {A : Type} (f g : A -> bool) (l : list A) :
  mask_and (map f l) (map g l) = map (fun x => f x && g x) l.
Proof. induction l as [|x l IH]; simpl; [|rewrite IH]; reflexivity. Qed.

(** ** The filter, record by record *)

Lemma filter_equal_Ok label selected d d' :
  Dashboard.filter_equal label selected d = Ok d' ->
  columns d' = columns d /\
  rows d' = List.filter (selected_by (columns d) label selected) (rows d).
Proof.
  unfold Dashboard.filter_equal, selected_by, field, getitem.
  destruct (Dashboard.is_all selected) eqn:Hall; simpl.
  - intros [= <-]. split; [reflexivity|].
    symmetry. apply filter_all. reflexivity.
  - destruct (get_loc label (columns d)) as [i|]; simpl; [|discriminate].
    intros [= <-]. simpl. split; [reflexivity|].
    unfold series_eq. rewrite map_map. apply select_map.
Qed.

Lemma dt_date_Ok s ds :
  dt_date s = Ok ds ->
  ds = map (fun c => match c with Stamp t => Some (ts_date t) | _ => None end) s.
Proof.
  unfold dt_date. destruct (forallb is_datetimelike s); congruence.
Qed.

Lemma filter_dates_two s e d d' :
  Dashboard.filter_dates [s; e] d = Ok d' ->
  columns d' = columns d /\
  rows d' = List.filter (in_date_range (columns d) s e) (rows d).
Proof.
  unfold Dashboard.filter_dates, in_date_range, field, getitem.
  destruct (get_loc "FSD Planned Del Date" (columns d)) as [i|]; simpl;
    [|discriminate].
  destruct (dt_date (map (iat i) (rows d))) as [ds|] eqn:Hds; simpl;
    [|discriminate].
  intros [= <-]. simpl. split; [reflexivity|].
  apply dt_date_Ok in Hds. subst ds.
  unfold series_ge, series_le. rewrite !map_map, mask_and_map.
  rewrite <- (select_map _ (rows d)). f_equal.
  apply map_ext. intros r. destruct (iat i r); reflexivity.
Qed.

Lemma filter_dates_skipped date_range d :
  length date_range <> 2%nat -> Dashboard.filter_dates date_range d = Ok d.
Proof.
  destruct date_range as [|s [|e [|x l]]]; simpl; intros H;
    try reflexivity; congruence.
Qed.

(** The records [create_filters] returns with a two-bound range: those of
    the frame, in order, that meet all five conditions. *)
Lemma create_filters_two df si sw sc sp s e out :
  Dashboard.create_filters df si sw sc sp [s; e] = Ok out ->
  columns out = columns df /\
  rows out =
    List.filter (fun r => matches_categories (columns df) si sw sc sp r
                          && in_date_range (columns df) s e r) (rows df).
Proof.
  unfold Dashboard.create_filters. intros H.
  bind_inv H. bind_inv H. bind_inv H. bind_inv H. bind_inv H.
  injection H as <-.
  apply filter_equal_Ok in Ha as [C1 R1].
  apply filter_equal_Ok in Ha0 as [C2 R2].
  apply filter_equal_Ok in Ha1 as [C3 R3].
  apply filter_equal_Ok in Ha2 as [C4 R4].
  apply filter_dates_two in Ha3 as [C5 R5].
  rewrite C1 in R2, C2. rewrite C2 in R3, C3. rewrite C3 in R4, C4.
  rewrite C4 in R5, C5.
  split; [assumption|].
  rewrite R5, R4, R3, R2, R1. rewrite !filter_filter.
  apply List.filter_ext. intros r. unfold matches_categories.
  rewrite ?andb_assoc. reflexivity.
Qed.

(** The same without an active range: only the four selections count. *)
Lemma create_filters_skipped df si sw sc sp date_range out :
  length date_range <> 2%nat ->
  Dashboard.create_filters df si sw sc sp date_range = Ok out ->
  columns out = columns df /\
  rows out = List.filter (matches_categories (columns df) si sw sc sp) (rows df).
Proof.
  unfold Dashboard.create_filters. intros Hlen H.
  bind_inv H. bind_inv H. bind_inv H. bind_inv H. bind_inv H.
  injection H as <-.
  apply filter_equal_Ok in Ha as [C1 R1].
  apply filter_equal_Ok in Ha0 as [C2 R2].
  apply filter_equal_Ok in Ha1 as [C3 R3].
  apply filter_equal_Ok in Ha2 as [C4 R4].
  rewrite filter_dates_skipped in Ha3 by assumption. injection Ha3 as <-.
  rewrite C1 in R2, C2. rewrite C2 in R3, C3. rewrite C3 in R4, C4.
  split; [assumption|].
  rewrite R4, R3, R2, R1. rewrite !filter_filter.
  apply List.filter_ext. intros r. unfold matches_categories.
  rewrite ?andb_assoc. reflexivity.
Qed.

Lemma series_min_le s m t :
  series_min s = Some m -> In (Stamp t) s -> ts_date m <= ts_date t.
Proof.
  revert m. induction s as [|c s IH]; simpl; intros m Hm Hin; [contradiction|].
  assert (Hrec : forall m', series_min s = Some m' -> In (Stamp t) s ->
                            ts_date m' <= ts_date t) by (intros; eauto).
  destruct c as [|x|x|u]; try (destruct Hin as [Hin|Hin]; [discriminate|]; eauto).
  destruct (series_min s) as [m'|] eqn:Hs.
  - injection Hm as <-. unfold ts_ltb.
    destruct Hin as [[= ->]|Hin].
    + destruct (Z.ltb_spec (ts_date m') (ts_date t)); simpl; [lia|].
      destruct (Z.eqb_spec (ts_date m') (ts_date t)); simpl; [|lia].
      destruct (ts_time m' <? ts_time t); lia.
    + specialize (Hrec m' eq_refl Hin).
      destruct (Z.ltb_spec (ts_date m') (ts_date u)); simpl; [lia|].
      destruct (Z.eqb_spec (ts_date m') (ts_date u)); simpl; [|lia].
      destruct (ts_time m' <? ts_time u); lia.
  - injection Hm as <-. destruct Hin as [[= ->]|Hin]; [lia|].
    clear -Hs Hin. exfalso. induction s as [|c s IH]; [contradiction|].
    simpl in Hs. destruct Hin as [->|Hin].
    + destruct (series_min s); discriminate.
    + destruct c; try (apply IH; assumption).
      destruct (series_min s); discriminate.
Qed.

Lemma series_max_ge s m t :
  series_max s = Some m -> In (Stamp t) s -> ts_date t <= ts_date m.
Proof.
  revert m. induction s as [|c s IH]; simpl; intros m Hm Hin; [contradiction|].
  assert (Hrec : forall m', series_max s = Some m' -> In (Stamp t) s ->
                            ts_date t <= ts_date m') by (intros; eauto).
  destruct c as [|x|x|u]; try (destruct Hin as [Hin|Hin]; [discriminate|]; eauto).
  destruct (series_max s) as [m'|] eqn:Hs.
  - injection Hm as <-. unfold ts_ltb.
    destruct Hin as [[= ->]|Hin].
    + destruct (Z.ltb_spec (ts_date t) (ts_date m')); simpl; [lia|].
      destruct (Z.eqb_spec (ts_date t) (ts_date m')); simpl; [|lia].
      destruct (ts_time t <? ts_time m'); lia.
    + specialize (Hrec m' eq_refl Hin).
      destruct (Z.ltb_spec (ts_date u) (ts_date m')); simpl; [lia|].
      destruct (Z.eqb_spec (ts_date u) (ts_date m')); simpl; [|lia].
      destruct (ts_time u <? ts_time m'); lia.
  - injection Hm as <-. destruct Hin as [[= ->]|Hin]; [lia|].
    clear -Hs Hin. exfalso. induction s as [|c s IH]; [contradiction|].
    simpl in Hs. destruct Hin as [->|Hin].
    + destruct (series_max s); discriminate.
    + destruct c; try (apply IH; assumption).
      destruct (series_max s); discriminate.
Qed.

Lemma matches_categories_all cols r :
  matches_categories cols (Str "All") (Str "All") (Str "All") (Str "All") r = true.
Proof. reflexivity. Qed.

(** ** The filter returns *)

Lemma filter_equal_returns label selected d :
  has_column d label = true ->
  exists d', Dashboard.filter_equal label selected d = Ok d'.
Proof.
  unfold has_column, Dashboard.filter_equal, getitem. intros H.
  destruct (Dashboard.is_all selected); [eexists; reflexivity|].
  destruct (get_loc label (columns d)); [|discriminate].
  eexists. reflexivity.
Qed.

Lemma has_column_columns d d' label :
  columns d' = columns d -> has_column d' label = has_column d label.
Proof. unfold has_column. intros ->. reflexivity. Qed.

Lemma filter_dates_returns date_range d :
  has_column d "FSD Planned Del Date" = true ->
  Forall (fun r => is_datetimelike (field (columns d) "FSD Planned Del Date" r) = true)
    (rows d) ->
  exists d', Dashboard.filter_dates date_range d = Ok d'.
Proof.
  unfold has_column, Dashboard.filter_dates, field, getitem. intros Hcol Hall.
  destruct date_range as [|s [|e [|x l]]]; try (eexists; reflexivity).
  destruct (get_loc "FSD Planned Del Date" (columns d)) as [i|]; [|discriminate].
  cbn [bind]. unfold dt_date.
  assert (Hf : forallb is_datetimelike (map (iat i) (rows d)) = true).
  { apply forallb_forall. intros c Hc. apply in_map_iff in Hc as (r & <- & Hr).
    rewrite List.Forall_forall in Hall. apply Hall. exact Hr. }
  rewrite Hf. cbn [bind]. eexists. reflexivity.
Qed.


(** ** Claims on the filter *)

(** With the four selections on "All" and a date range that does not have
    two bounds, the filter part returns the frame it was given. *)
Lemma filters_all_skipped (df : DataFrame) (date_range : list date) :
  length date_range <> 2%nat ->
  Dashboard.create_filters df (Str "All") (Str "All") (Str "All") (Str "All")
    date_range = Ok df.
Proof.
  intros Hlen. unfold Dashboard.create_filters, Dashboard.filter_equal. simpl.
  rewrite filter_dates_skipped by assumption. reflexivity.
Qed.

(** C8. Whatever the selections, the frame [create_filters] returns has the
    header of the input and its records are a subsequence of the input's
    records: nothing new, nothing twice, the order kept. *)
Theorem create_filters_subsequence (df : DataFrame)
    (selected_impl selected_wricef selected_complexity selected_priority : cell)
    (date_range : list date) (out : DataFrame) :
  Dashboard.create_filters df selected_impl selected_wricef selected_complexity
    selected_priority date_range = Ok out ->
  columns out = columns df /\ sublist (rows out) (rows df).
Proof.
  intros H.
  destruct (Nat.eq_dec (length date_range) 2%nat) as [Hlen|Hlen].
  - destruct date_range as [|s [|e [|x l]]]; try discriminate.
    apply create_filters_two in H as [HC HR]. split; [assumption|].
    rewrite HR. apply filter_sublist.
  - apply create_filters_skipped in H as [HC HR]; [|assumption].
    split; [assumption|]. rewrite HR. apply filter_sublist.
Qed.

Lemma create_filters_subsequence_witness :
  columns (mkDataFrame example_header [example_r3]) = columns example_df /\
  sublist (rows (mkDataFrame example_header [example_r3])) (rows example_df).
Proof.
  apply (create_filters_subsequence example_df (Str "All") (Str "R")
           (Str "All") (Str "All") [738000; 738300]).
  reflexivity.
Defined.

(** C9. With a range of two bounds [s], [e] the records returned are the
    records of the input that meet the four selections and carry a planned
    date whose calendar day [d] has [s <= d <= e]: both bounds are kept and
    the time of day plays no part.  With any other number of bounds the
    date plays no part at all. *)
Theorem create_filters_date_range (df : DataFrame)
    (selected_impl selected_wricef selected_complexity selected_priority : cell)
    (date_range : list date) (out : DataFrame) :
  Dashboard.create_filters df selected_impl selected_wricef selected_complexity
    selected_priority date_range = Ok out ->
  (forall s e, date_range = [s; e] ->
     forall r, In r (rows out) <->
       In r (rows df) /\
       matches_categories (columns df) selected_impl selected_wricef
         selected_complexity selected_priority r = true /\
       exists t, field (columns df) "FSD Planned Del Date" r = Stamp t /\
                 s <= ts_date t <= e) /\
  (length date_range <> 2%nat ->
     rows out =
       List.filter (matches_categories (columns df) selected_impl selected_wricef
                      selected_complexity selected_priority) (rows df)).
Proof.
  intros H. split.
  - intros s e ->. apply create_filters_two in H as [_ HR]. intros r.
    rewrite HR, List.filter_In, andb_true_iff. unfold in_date_range.
    split.
    + intros (Hin & Hcat & Hd). split; [assumption|]. split; [assumption|].
      destruct (field (columns df) "FSD Planned Del Date" r) as [| | |t];
        try discriminate.
      exists t. split; [reflexivity|].
      apply andb_true_iff in Hd as [H1 H2].
      apply Z.leb_le in H1, H2. lia.
    + intros (Hin & Hcat & t & Ht & Hs & He). split; [assumption|].
      split; [assumption|]. rewrite Ht.
      apply andb_true_iff. split; apply Z.leb_le; assumption.
  - intros Hlen. apply create_filters_skipped in H as [_ HR]; assumption.
Qed.

Lemma create_filters_date_range_witness :
  (forall s e, [738000; 738200] = [s; e] ->
     forall r, In r [example_r1; example_r3] <->
       In r (rows example_df) /\
       matches_categories (columns example_df) (Str "All") (Str "All")
         (Str "All") (Str "All") r = true /\
       exists t, field (columns example_df) "FSD Planned Del Date" r = Stamp t /\
                 s <= ts_date t <= e) /\
  (length [738000; 738200] <> 2%nat ->
     [example_r1; example_r3] =
       List.filter (matches_categories (columns example_df) (Str "All")
                      (Str "All") (Str "All") (Str "All")) (rows example_df)).
Proof.
  apply (create_filters_date_range example_df (Str "All") (Str "All")
           (Str "All") (Str "All") [738000; 738200]
           (mkDataFrame example_header [example_r1; example_r3])).
  reflexivity.
Defined.

(** C10. With a range of two bounds no record without a planned date is
    returned, whatever the bounds.  In particular, with the four selections
    on "All" and the range the date picker starts from (earliest to latest
    planned date), the records returned are exactly those that have a
    planned date, and a frame holding a record without one is not returned
    unchanged. *)
Theorem create_filters_drops_missing_dates (df : DataFrame)
    (selected_impl selected_wricef selected_complexity selected_priority : cell)
    (s e : date) (out : DataFrame) :
  Dashboard.create_filters df selected_impl selected_wricef selected_complexity
    selected_priority [s; e] = Ok out ->
  (forall r, In r (rows out) ->
     field (columns df) "FSD Planned Del Date" r <> NA) /\
  ((exists r, In r (rows df) /\
              field (columns df) "FSD Planned Del Date" r = NA) ->
     out <> df) /\
  (forall planned,
     getitem df "FSD Planned Del Date" = Ok planned ->
     Dashboard.default_date_range planned = Some [s; e] ->
     selected_impl = Str "All" -> selected_wricef = Str "All" ->
     selected_complexity = Str "All" -> selected_priority = Str "All" ->
     rows out =
       List.filter (fun r => notna (field (columns df) "FSD Planned Del Date" r))
         (rows df)).
Proof.
  intros H. pose proof H as Hraw.
  apply create_filters_two in H as [HC HR].
  assert (Hnot : forall r, In r (rows out) ->
            field (columns df) "FSD Planned Del Date" r <> NA).
  { intros r Hin. rewrite HR in Hin. apply List.filter_In in Hin as [_ Hp].
    apply andb_true_iff in Hp as [_ Hd]. unfold in_date_range in Hd.
    intros Hna. rewrite Hna in Hd. discriminate. }
  split; [exact Hnot|]. split.
  - intros (r & Hin & Hna) ->. exact (Hnot r Hin Hna).
  - intros planned Hget Hdef -> -> -> ->.
    rewrite HR. apply List.filter_ext_in. intros r Hin.
    rewrite matches_categories_all. simpl.
    unfold Dashboard.create_filters, Dashboard.filter_equal in Hraw.
    simpl in Hraw. bind_inv Hraw. injection Hraw as <-.
    unfold Dashboard.filter_dates in Ha. rewrite Hget in Ha. simpl in Ha.
    destruct (dt_date planned) as [ds|] eqn:Hds; [|discriminate]. clear Ha.
    unfold dt_date in Hds.
    destruct (forallb is_datetimelike planned) eqn:Hall; [|discriminate].
    unfold getitem in Hget. unfold in_date_range, field.
    destruct (get_loc "FSD Planned Del Date" (columns df)) as [i|];
      [|discriminate].
    injection Hget as <-.
    rewrite forallb_forall in Hall.
    assert (Hcell : In (iat i r) (map (iat i) (rows df))) by (apply in_map; assumption).
    specialize (Hall _ Hcell).
    destruct (iat i r) as [| | |t] eqn:Hc; try discriminate; [reflexivity|].
    unfold Dashboard.default_date_range in Hdef.
    destruct (series_min (map (iat i) (rows df))) as [lo|] eqn:Hlo; [|discriminate].
    destruct (series_max (map (iat i) (rows df))) as [hi|] eqn:Hhi; [|discriminate].
    injection Hdef as <- <-.
    pose proof (series_min_le _ _ _ Hlo Hcell).
    pose proof (series_max_ge _ _ _ Hhi Hcell).
    simpl. apply andb_true_iff. split; apply Z.leb_le; assumption.
Qed.

Lemma create_filters_drops_missing_dates_witness :
  (forall r, In r [example_r1; example_r3] ->
     field (columns example_df) "FSD Planned Del Date" r <> NA) /\
  ((exists r, In r (rows example_df) /\
              field (columns example_df) "FSD Planned Del Date" r = NA) ->
     mkDataFrame example_header [example_r1; example_r3] <> example_df) /\
  (forall planned,
     getitem example_df "FSD Planned Del Date" = Ok planned ->
     Dashboard.default_date_range planned = Some [738000; 738200] ->
     Str "All" = Str "All" -> Str "All" = Str "All" ->
     Str "All" = Str "All" -> Str "All" = Str "All" ->
     [example_r1; example_r3] =
       List.filter
         (fun r => notna (field (columns example_df) "FSD Planned Del Date" r))
         (rows example_df)).
Proof.
  apply (create_filters_drops_missing_dates example_df (Str "All") (Str "All")
           (Str "All") (Str "All") 738000 738200
           (mkDataFrame example_header [example_r1; example_r3])).
  reflexivity.
Defined.

(** ** The preparer *)

Lemma df_eq (a b : DataFrame) :
  columns a = columns b -> rows a = rows b -> a = b.
Proof. destruct a, b; simpl; intros -> ->; reflexivity. Qed.

Lemma for_each_ext {A S : Type} (body1 body2 : S -> A -> result S) l st :
  (forall st a, body1 st a = body2 st a) ->
  for_each body1 l st = for_each body2 l st.
Proof.
  intros Hb. revert st. induction l as [|a l IH]; intros st; simpl;
    [reflexivity|].
  rewrite Hb. destruct (body2 st a); simpl; [apply IH | reflexivity].
Qed.

Lemma get_loc_lookup label cols p :
  get_loc label cols = Some p -> cols !! p = Some label.
Proof.
  revert p. induction cols as [|c cols IH]; intros p; simpl; [discriminate|].
  destruct (String.eqb_spec label c) as [->|Hne].
  - intros [= <-]. reflexivity.
  - destruct (get_loc label cols) as [i|]; simpl; [|discriminate].
    intros [= <-]. simpl. apply IH. reflexivity.
Qed.

Lemma touches_In cols labels p :
  touches cols labels p = true ->
  exists l, In l labels /\ get_loc l cols = Some p.
Proof.
  unfold touches. rewrite existsb_exists. intros (l & Hin & Hl).
  exists l. split; [assumption|].
  destruct (get_loc l cols) as [i|]; [|discriminate].
  apply Nat.eqb_eq in Hl. congruence.
Qed.

Lemma In_touches cols labels l p :
  In l labels -> get_loc l cols = Some p -> touches cols labels p = true.
Proof.
  intros Hin Hl. unfold touches. rewrite existsb_exists.
  exists l. split; [assumption|]. rewrite Hl. apply Nat.eqb_refl.
Qed.

Lemma effort_cols_no_date l :
  In l Visualizer.effort_cols -> contains "Date" l = false.
Proof.
  intros [<-|[<-|[<-|[<-|[]]]]]; reflexivity.
Qed.

(** No position of the header is both a date column and an effort column. *)
Lemma date_effort_disjoint cols p :
  touches cols (List.filter (contains "Date") cols) p = true ->
  touches cols Visualizer.effort_cols p = false.
Proof.
  intros Hd. destruct (touches cols Visualizer.effort_cols p) eqn:He;
    [|reflexivity].
  apply touches_In in Hd as (l & Hl & Hp).
  apply touches_In in He as (l' & Hl' & Hp').
  apply get_loc_lookup in Hp, Hp'. assert (l = l') by congruence. subst l'.
  apply List.filter_In in Hl as [_ Hl].
  rewrite (effort_cols_no_date l Hl') in Hl. discriminate.
Qed.

Section Loops.
Context (f : cell -> cell).

Lemma insert_iat i (r : record) : <[i := f (iat i r)]> r = alter f i r.
Proof.
  revert i. induction r as [|c r IH]; intros [|i]; simpl; try reflexivity.
  f_equal. apply IH.
Qed.

Lemma assign_map i (rs : list record) :
  assign i (map f (map (iat i) rs)) rs = map (alter f i) rs.
Proof.
  induction rs as [|r rs IH]; simpl; [reflexivity|].
  rewrite insert_iat, IH. reflexivity.
Qed.

Lemma loop_body (df : DataFrame) (col : string) :
  (if has_column df col then
     s <- getitem df col ;; Ok (setitem df col (map f s))
   else Ok df) = Ok (map_column f col df).
Proof.
  unfold has_column, getitem, setitem, map_column.
  destruct (get_loc col (columns df)) as [i|] eqn:Hloc; simpl; [|reflexivity].
  rewrite assign_map. reflexivity.
Qed.

Lemma for_each_map_column (labels : list string) (df : DataFrame) :
  for_each (fun df col =>
              if has_column df col then
                s <- getitem df col ;; Ok (setitem df col (map f s))
              else Ok df) labels df
  = Ok (fold_left (fun d l => map_column f l d) labels df).
Proof.
  revert df. induction labels as [|l labels IH]; intros df; simpl; [reflexivity|].
  rewrite loop_body. simpl. apply IH.
Qed.

Lemma map_column_columns l df : columns (map_column f l df) = columns df.
Proof. unfold map_column. destruct (get_loc l (columns df)); reflexivity. Qed.

Lemma map_column_rows l df :
  rows (map_column f l df) = map (alter_at (columns df) f l) (rows df).
Proof.
  unfold map_column, alter_at. destruct (get_loc l (columns df)); simpl;
    [reflexivity|]. symmetry. apply map_id.
Qed.

Lemma fold_map_column_columns labels df :
  columns (fold_left (fun d l => map_column f l d) labels df) = columns df.
Proof.
  revert df. induction labels as [|l labels IH]; intros df; simpl; [reflexivity|].
  rewrite IH. apply map_column_columns.
Qed.

Lemma fold_map_column_rows labels df :
  rows (fold_left (fun d l => map_column f l d) labels df)
  = map (fun r => fold_left (fun r l => alter_at (columns df) f l r) labels r)
      (rows df).
Proof.
  revert df. induction labels as [|l labels IH]; intros df; simpl.
  - symmetry. apply map_id.
  - rewrite IH, map_column_columns, map_column_rows, map_map. reflexivity.
Qed.

Hypothesis f_idem : forall c, f (f c) = f c.

Lemma lookup_fold_alter cols labels (r : record) p :
  fold_left (fun r l => alter_at cols f l r) labels r !! p
  = (if touches cols labels p then f else id) <$> (r !! p).
Proof.
  revert r. induction labels as [|l labels IH]; intros r; simpl.
  - destruct (r !! p); reflexivity.
  - rewrite IH. unfold alter_at.
    destruct (get_loc l cols) as [i|]; simpl; [|reflexivity].
    destruct (Nat.eqb_spec i p) as [->|Hne]; simpl.
    + rewrite list_lookup_alter_eq. destruct (r !! p); simpl; [|reflexivity].
      destruct (touches cols labels p); simpl; [rewrite f_idem|]; reflexivity.
    + rewrite list_lookup_alter_ne by assumption. reflexivity.
Qed.

End Loops.

Section Preparer.
Context (ext : Externals).

Lemma to_datetime_cell_idem c :
  to_datetime_cell ext (to_datetime_cell ext c) = to_datetime_cell ext c.
Proof.
  destruct c as [|x|s|t]; simpl; try reflexivity.
  - destruct (datetime_of_number ext x); reflexivity.
  - destruct (parse_datetime ext s); reflexivity.
Qed.

Lemma coerce_effort_number c :
  exists x, coerce_effort ext c = Num x /\ F64.is_nan x = false.
Proof.
  unfold coerce_effort.
  destruct (isna (to_numeric_cell ext c)) eqn:Hna.
  - eexists. split; reflexivity.
  - destruct c as [|x|s|t]; simpl in *; try discriminate.
    + exists x. auto.
    + destruct (parse_number ext s) as [x|]; simpl in *; [|discriminate].
      exists x. auto.
    + destruct (number_of_datetime ext t) as [x|]; simpl in *; [|discriminate].
      exists x. auto.
Qed.

Lemma coerce_effort_idem c :
  coerce_effort ext (coerce_effort ext c) = coerce_effort ext c.
Proof.
  destruct (coerce_effort_number c) as (x & -> & Hx).
  unfold coerce_effort. simpl. rewrite Hx. reflexivity.
Qed.

Lemma fillna_to_numeric s :
  fillna (Num (F64.of_Z 0)) (to_numeric ext s) = map (coerce_effort ext) s.
Proof. unfold fillna, to_numeric. rewrite map_map. reflexivity. Qed.

(** [prepare_data] never raises and works record by record. *)
Lemma prepare_data_records df :
  Visualizer.prepare_data ext df
  = Ok {| columns := columns df;
          rows := map (prepare_record ext (columns df)) (rows df) |}.
Proof.
  unfold Visualizer.prepare_data.
  rewrite (for_each_map_column (to_datetime_cell ext)). cbn [bind].
  rewrite (for_each_ext _
             (fun df col =>
                if has_column df col then
                  s <- getitem df col ;;
                  Ok (setitem df col (map (coerce_effort ext) s))
                else Ok df)).
  2: { intros st a. destruct (has_column st a); [|reflexivity].
       destruct (getitem st a); simpl; [rewrite fillna_to_numeric|];
         reflexivity. }
  rewrite (for_each_map_column (coerce_effort ext)). f_equal.
  apply df_eq; cbn [columns rows].
  - rewrite !fold_map_column_columns. reflexivity.
  - rewrite !fold_map_column_rows, fold_map_column_columns, map_map.
    reflexivity.
Qed.

Lemma lookup_prepare_record cols (r : record) p :
  prepare_record ext cols r !! p
  = (if touches cols Visualizer.effort_cols p then coerce_effort ext else id)
      <$> ((if touches cols (List.filter (contains "Date") cols) p
            then to_datetime_cell ext else id) <$> (r !! p)).
Proof.
  unfold prepare_record.
  rewrite (lookup_fold_alter _ coerce_effort_idem).
  rewrite (lookup_fold_alter _ to_datetime_cell_idem). reflexivity.
Qed.

Lemma prepare_record_idem cols (r : record) :
  prepare_record ext cols (prepare_record ext cols r) = prepare_record ext cols r.
Proof.
  apply list_eq. intros p. rewrite !lookup_prepare_record.
  destruct (r !! p) as [c|]; [|reflexivity].
  destruct (touches cols (List.filter (contains "Date") cols) p) eqn:Hd.
  - rewrite (date_effort_disjoint _ _ Hd). cbn.
    rewrite to_datetime_cell_idem. reflexivity.
  - destruct (touches cols Visualizer.effort_cols p); cbn;
      [rewrite coerce_effort_idem|]; reflexivity.
Qed.

End Preparer.

(** C5. [prepare_data] returns a frame on every input, and on the frame it
    returns it changes nothing. *)
Theorem prepare_data_idempotent (ext : Externals) (df : DataFrame) :
  exists prepared,
    Visualizer.prepare_data ext df = Ok prepared /\
    Visualizer.prepare_data ext prepared = Ok prepared.
Proof.
  eexists. split; [apply prepare_data_records|].
  rewrite prepare_data_records. simpl. f_equal. f_equal.
  rewrite map_map. apply map_ext. intros r. apply prepare_record_idem.
Qed.

Lemma get_loc_lt label cols p : get_loc label cols = Some p -> (p < length cols)%nat.
Proof.
  intros H. apply get_loc_lookup in H. apply lookup_lt_Some in H. exact H.
Qed.

Lemma iat_lookup i (r : record) : iat i r = default NA (r !! i).
Proof. apply nth_lookup. Qed.

(** C6. After [prepare_data], a present effort column holds, cell by cell,
    what [to_numeric(..., errors='coerce').fillna(0)] makes of the raw
    column: every cell is a number that is not NaN; a cell that does not
    parse is 0; a cell that parses keeps its value, whatever its sign. *)
Theorem prepare_data_effort_columns (ext : Externals) (df prepared : DataFrame)
    (label : string) :
  Visualizer.prepare_data ext df = Ok prepared ->
  rectangular df ->
  In label Visualizer.effort_cols ->
  has_column df label = true ->
  exists raw,
    getitem df label = Ok raw /\
    getitem prepared label
      = Ok (fillna (Num (F64.of_Z 0)) (to_numeric ext raw)) /\
    Forall (fun c => exists x, c = Num x /\ F64.is_nan x = false)
      (fillna (Num (F64.of_Z 0)) (to_numeric ext raw)) /\
    Forall2 (fun c c' =>
               if isna (to_numeric_cell ext c) then c' = Num (F64.of_Z 0)
               else c' = to_numeric_cell ext c)
      raw (fillna (Num (F64.of_Z 0)) (to_numeric ext raw)).
Proof.
  intros Hprep Hrect Hin Hcol.
  rewrite prepare_data_records in Hprep. injection Hprep as <-.
  unfold has_column in Hcol. unfold getitem. cbn [columns rows].
  destruct (get_loc label (columns df)) as [i|] eqn:Hloc; [|discriminate].
  eexists. split; [reflexivity|]. rewrite fillna_to_numeric. split; [|split].
  - f_equal. rewrite !map_map. apply map_ext_in. intros r Hr.
    rewrite !iat_lookup, lookup_prepare_record.
    rewrite (In_touches _ _ _ _ Hin Hloc).
    destruct (touches (columns df) (List.filter (contains "Date") (columns df)) i)
      eqn:Hd.
    { apply date_effort_disjoint in Hd.
      rewrite (In_touches _ _ _ _ Hin Hloc) in Hd. discriminate. }
    unfold rectangular in Hrect. rewrite List.Forall_forall in Hrect.
    specialize (Hrect r Hr). apply get_loc_lt in Hloc. rewrite <- Hrect in Hloc.
    apply lookup_lt_is_Some_2 in Hloc as [c Hc]. rewrite Hc. reflexivity.
  - apply List.Forall_forall. intros c Hc. apply in_map_iff in Hc as (c0 & <- & _).
    apply coerce_effort_number.
  - induction (map (iat i) (rows df)) as [|c s IH]; simpl; constructor; [|exact IH].
    unfold coerce_effort. destruct (isna (to_numeric_cell ext c)); reflexivity.
Qed.

Lemma prepare_data_effort_columns_witness :
  exists raw,
    getitem raw_effort_df "ABAP Effort Forecast (hrs)" = Ok raw /\
    getitem prepared_effort_df "ABAP Effort Forecast (hrs)"
      = Ok (fillna (Num (F64.of_Z 0)) (to_numeric stub_externals raw)) /\
    Forall (fun c => exists x, c = Num x /\ F64.is_nan x = false)
      (fillna (Num (F64.of_Z 0)) (to_numeric stub_externals raw)) /\
    Forall2 (fun c c' =>
               if isna (to_numeric_cell stub_externals c)
               then c' = Num (F64.of_Z 0)
               else c' = to_numeric_cell stub_externals c)
      raw (fillna (Num (F64.of_Z 0)) (to_numeric stub_externals raw)).
Proof.
  apply (prepare_data_effort_columns stub_externals raw_effort_df
           prepared_effort_df "ABAP Effort Forecast (hrs)").
  - reflexivity.
  - repeat constructor.
  - simpl. auto.
  - reflexivity.
Defined.

(** C6, as stated, fails: a negative effort goes through [prepare_data]
    unchanged, so the prepared column holds a value below 0. *)
Lemma prepare_data_keeps_negative_effort :
  exists prepared col,
    Visualizer.prepare_data stub_externals raw_effort_df = Ok prepared /\
    getitem prepared "ABAP Effort Forecast (hrs)" = Ok col /\
    ~ Forall (fun c => exists x, c = Num x /\ F64.leb F64.zero x = true) col.
Proof.
  exists prepared_effort_df. eexists. split; [reflexivity|].
  split; [reflexivity|]. intros H.
  apply List.Forall_inv in H as (x & [= <-] & Hx). discriminate.
Qed.

(** ** The loaders *)

Lemma map_nth_seq {A : Type} (l : list A) (d : A) :
  map (fun k => nth k l d) (seq 0 (length l)) = l.
Proof.
  induction l as [|x l IH]; simpl; [reflexivity|].
  f_equal. rewrite <- seq_shift, map_map. exact IH.
Qed.

Lemma sample_data_first_column (ext : Externals) :
  (forall g xs n, length (fst (choice ext g xs n)) = n) ->
  len (Visualizer.create_sample_data ext) = Visualizer.n_records /\
  getitem (Visualizer.create_sample_data ext) "Implementation"
    = Ok (fst (choice ext (seed ext 42) Visualizer.implementations
                 Visualizer.n_records)).
Proof.
  intros Hlen. unfold Visualizer.create_sample_data.
  pose proof (Hlen (seed ext 42) Visualizer.implementations Visualizer.n_records)
    as H0.
  destruct (choice ext (seed ext 42) Visualizer.implementations
              Visualizer.n_records) as [c0 g0].
  destruct (choice ext g0 _ _) as [c1 g1].
  destruct (choice ext g1 _ _) as [c2 g2].
  destruct (choice ext g2 _ _) as [c3 g3].
  destruct (choice ext g3 _ _) as [c4 g4].
  destruct (uniform ext g4 _ _ _) as [u0 g5].
  destruct (uniform ext g5 _ _ _) as [u1 g6].
  destruct (uniform ext g6 _ _ _) as [u2 g7].
  destruct (uniform ext g7 _ _ _) as [u3 g8].
  cbn [fst] in *. unfold len, getitem, from_dict.
  cbn [columns rows map fst snd get_loc String.eqb Ascii.eqb Bool.eqb iat].
  rewrite length_map, length_seq. split; [exact H0|].
  f_equal. rewrite map_map. unfold iat. cbn [nth].
  apply map_nth_seq.
Qed.

(** C2. When [read_excel] raises, the visualizer reports the error and
    takes the frame of [create_sample_data] (generator seeded with 42, 500
    records); the dashboard reports the error, returns [False] and leaves
    [self.df] as it was.  The dashboard takes its sample frame only when no
    file was uploaded. *)
Theorem load_data_on_failure (ext : Externals) (file_path uploaded : string)
    (e e' : exn) (self_df : option DataFrame) :
  read_excel ext (FilePath file_path) = Raise e ->
  read_excel ext (UploadedFile uploaded) = Raise e' ->
  (forall g xs n, length (fst (choice ext g xs n)) = n) ->
  Visualizer.load_data ext file_path
    = (Visualizer.create_sample_data ext, [ErrorLoading e; SampleDataCreated]) /\
  len (Visualizer.create_sample_data ext) = 500%nat /\
  getitem (Visualizer.create_sample_data ext) "Implementation"
    = Ok (fst (choice ext (seed ext 42) Visualizer.implementations 500)) /\
  Dashboard.load_data ext self_df (Some uploaded)
    = (self_df, false, [ErrorLoading e']) /\
  Dashboard.load_data ext self_df None
    = (Some (Dashboard.create_sample_data ext), true, [UsingSampleData]).
Proof.
  intros Hpath Hup Hlen.
  destruct (sample_data_first_column ext Hlen) as [Hn Hcol].
  unfold Visualizer.load_data, Dashboard.load_data. rewrite Hpath, Hup.
  repeat split; assumption.
Qed.

Lemma load_data_on_failure_witness :
  Visualizer.load_data stub_externals "WRICEF-Tracker-dump.xlsx"
    = (Visualizer.create_sample_data stub_externals,
       [ErrorLoading FileNotFoundError; SampleDataCreated]) /\
  len (Visualizer.create_sample_data stub_externals) = 500%nat /\
  getitem (Visualizer.create_sample_data stub_externals) "Implementation"
    = Ok (fst (choice stub_externals (seed stub_externals 42)
                 Visualizer.implementations 500)) /\
  Dashboard.load_data stub_externals None (Some "upload.xlsx")
    = (None, false, [ErrorLoading FileNotFoundError]) /\
  Dashboard.load_data stub_externals None None
    = (Some (Dashboard.create_sample_data stub_externals), true,
       [UsingSampleData]).
Proof.
  apply (load_data_on_failure stub_externals "WRICEF-Tracker-dump.xlsx"
           "upload.xlsx" FileNotFoundError FileNotFoundError None).
  - reflexivity.
  - reflexivity.
  - intros g xs n. apply repeat_length.
Defined.

(** C2, as stated, fails for the dashboard: after an upload that cannot be
    read there is no frame at all, sample or other. *)
Lemma dashboard_load_failure_leaves_no_frame :
  read_excel stub_externals (UploadedFile "upload.xlsx") = Raise FileNotFoundError /\
  Dashboard.load_data stub_externals None (Some "upload.xlsx")
    = (None, false, [ErrorLoading FileNotFoundError]) /\
  fst (fst (Dashboard.load_data stub_externals None (Some "upload.xlsx")))
    <> Some (Dashboard.create_sample_data stub_externals).
Proof.
  split; [reflexivity|]. split; [reflexivity|]. discriminate.
Qed.

(** ** The insight generators *)

Lemma getitem_missing df label :
  has_column df label = false -> getitem df label = Raise (KeyError (Str label)).
Proof.
  unfold has_column, getitem. destruct (get_loc label (columns df));
    [discriminate | reflexivity].
Qed.

(** C1. On a frame without records both generators raise [KeyError] at
    the first statement after the total: at [mode()[0]] of the empty
    column, or at the column itself when it is absent.  No list comes back
    and no percentage is computed. *)
Theorem generate_insights_empty_frame (df : DataFrame) :
  rows df = [] ->
  Visualizer.generate_insights df
    = Raise (KeyError (if has_column df "WRICEF Type" then Num (F64.of_Z 0)
                       else Str "WRICEF Type")) /\
  Dashboard.generate_insights df
    = Raise (KeyError (if has_column df "WRICEF Type" then Num (F64.of_Z 0)
                       else Str "WRICEF Type")).
Proof.
  intros Hrows.
  unfold Visualizer.generate_insights, Dashboard.generate_insights,
    has_column, getitem.
  rewrite Hrows.
  destruct (get_loc "WRICEF Type" (columns df)); split; reflexivity.
Qed.

Lemma generate_insights_empty_frame_witness :
  Visualizer.generate_insights empty_df = Raise (KeyError (Num (F64.of_Z 0))) /\
  Dashboard.generate_insights empty_df = Raise (KeyError (Num (F64.of_Z 0))).
Proof.
  apply (generate_insights_empty_frame empty_df). reflexivity.
Defined.

(** C1, as stated, fails: on the tracker without records neither
    generator returns a list. *)
Lemma generate_insights_empty_frame_raises :
  rows empty_df = [] /\
  ~ returns (Visualizer.generate_insights empty_df) /\
  ~ returns (Dashboard.generate_insights empty_df).
Proof.
  split; [reflexivity|].
  split; apply raises_not_returns; eexists; reflexivity.
Qed.

Lemma SFcompare_refl (x : float) :
  F64.is_nan x = false -> SFcompare x x = Some Eq.
Proof.
  destruct x as [s|s| |s m e]; simpl; intros H; try discriminate.
  - reflexivity.
  - destruct s; reflexivity.
  - rewrite Z.compare_refl, Pos.compare_cont_refl. destruct s; reflexivity.
Qed.

Lemma py_eq_refl v : notna v = true -> py_eq v v = true.
Proof.
  unfold notna. destruct v as [|x|s|t]; simpl; intros H; try discriminate.
  - unfold F64.eqb, SFeqb. rewrite SFcompare_refl; [reflexivity|].
    destruct (F64.is_nan x); [discriminate | reflexivity].
  - apply String.eqb_refl.
  - unfold timestamp_eqb. rewrite !Z.eqb_refl. reflexivity.
Qed.

Lemma unique_In v s : In v (unique s) -> In v s.
Proof.
  induction s as [|c s IH]; simpl; [auto|].
  intros [->|H]; [auto|]. apply List.filter_In in H as [H _]. auto.
Qed.

Lemma insert_by_count_In q p l :
  In q (insert_by_count p l) <-> q = p \/ In q l.
Proof.
  induction l as [|x l IH]; simpl; [intuition congruence|].
  destruct (Nat.ltb (snd p) (snd x)); simpl; [rewrite IH|]; intuition congruence.
Qed.

Lemma insert_by_count_not_nil p l : insert_by_count p l <> [].
Proof. destruct l as [|x l]; simpl; [|destruct (Nat.ltb _ _)]; discriminate. Qed.

Lemma sorted_by_count_In q l :
  In q (fold_right insert_by_count [] l) <-> In q l.
Proof.
  induction l as [|x l IH]; simpl; [tauto|].
  rewrite insert_by_count_In, IH. intuition congruence.
Qed.

Lemma value_counts_keys v s :
  In v (map fst (value_counts s)) -> notna v = true.
Proof.
  unfold value_counts. intros H. apply in_map_iff in H as ([v' n] & <- & H).
  apply (proj1 (sorted_by_count_In _ _)) in H.
  apply in_map_iff in H as (v'' & [= <- _] & H).
  apply unique_In in H. apply List.filter_In in H as [_ H]. exact H.
Qed.

Lemma value_counts_not_nil s : dropna s <> [] -> value_counts s <> [].
Proof.
  unfold value_counts. destruct (dropna s) as [|c s']; [congruence|].
  intros _. simpl. apply insert_by_count_not_nil.
Qed.

Lemma insert_sorted_In x c l : In x (insert_sorted c l) <-> x = c \/ In x l.
Proof.
  induction l as [|d l IH]; simpl; [intuition congruence|].
  destruct (cell_leb c d); simpl; [|rewrite IH]; intuition congruence.
Qed.

Lemma sorted_In x l : In x (fold_right insert_sorted [] l) <-> In x l.
Proof.
  induction l as [|c l IH]; simpl; [tauto|].
  rewrite insert_sorted_In, IH. intuition congruence.
Qed.

Lemma mode_In v s : In v (mode s) -> In v (map fst (value_counts s)).
Proof.
  unfold mode. destruct (value_counts s) as [|p vc] eqn:Hvc; [contradiction|].
  set (modes := map fst (List.filter (fun q => Nat.eqb (snd q) (snd p)) (p :: vc))).
  assert (Hsub : In v modes -> In v (map fst (p :: vc))).
  { unfold modes. intros H. apply in_map_iff in H as (q & <- & H).
    apply List.filter_In in H as [H _]. apply in_map. exact H. }
  destruct (same_kind modes); [rewrite sorted_In|]; exact Hsub.
Qed.

Lemma mode_not_nil s : value_counts s <> [] -> mode s <> [].
Proof.
  unfold mode. destruct (value_counts s) as [|p vc]; [congruence|]. intros _.
  assert (Hin : In (fst p)
                  (map fst (List.filter (fun q => Nat.eqb (snd q) (snd p)) (p :: vc)))).
  { apply in_map. apply List.filter_In. split; [left; reflexivity|].
    apply Nat.eqb_refl. }
  destruct (same_kind _).
  - apply (proj2 (sorted_In _ _)) in Hin. intros H. rewrite H in Hin. contradiction.
  - intros H. rewrite H in Hin. contradiction.
Qed.

Lemma loc_returns vc v :
  In v (map fst vc) -> py_eq v v = true -> exists n, loc vc v = Ok n.
Proof.
  intros Hin Hv. induction vc as [|p vc IH]; simpl in *; [contradiction|].
  destruct (py_eq (fst p) v) eqn:Hp; [eexists; reflexivity|].
  destruct Hin as [Heq|Hin]; [rewrite Heq in Hp; congruence | auto].
Qed.

(** On a column with a value, the two ways of asking for the most common
    value both answer. *)
Lemma most_common_mode s :
  dropna s <> [] ->
  exists v n, mode0 (mode s) = Ok v /\ loc (value_counts s) v = Ok n.
Proof.
  intros Hs. apply value_counts_not_nil in Hs.
  pose proof (mode_not_nil s Hs) as Hm.
  destruct (mode s) as [|v modes] eqn:Hmode; [congruence|].
  assert (Hin : In v (map fst (value_counts s))).
  { apply mode_In. rewrite Hmode. left. reflexivity. }
  destruct (loc_returns _ _ Hin (py_eq_refl _ (value_counts_keys _ _ Hin)))
    as [n Hn].
  exists v, n. split; [reflexivity | exact Hn].
Qed.

Lemma most_common_top s :
  dropna s <> [] ->
  exists v n, index0 (value_counts s) = Ok v /\ iloc0 (value_counts s) = Ok n.
Proof.
  intros Hs. apply value_counts_not_nil in Hs.
  destruct (value_counts s) as [|p vc]; [congruence|].
  exists (fst p), (snd p). split; reflexivity.
Qed.

Ltac raise_through :=
  repeat match goal with
         | |- raises (Raise _) => eexists; reflexivity
         | |- raises (bind (Raise _) _) => cbn [bind]
         | |- raises (bind (Ok _) _) => cbn [bind]
         | |- raises (bind ?r _) =>
             let E := fresh "E" in
             destruct r eqn:E; cbn [bind]; [|eexists; reflexivity]
         | |- raises (let x := _ in _) => cbv zeta
         end.

Lemma visualizer_needs_column df label :
  In label categorical_columns -> has_column df label = false ->
  raises (Visualizer.generate_insights df).
Proof.
  intros Hin Hcol. apply getitem_missing in Hcol.
  unfold Visualizer.generate_insights.
  destruct Hin as [<-|[<-|[<-|[<-|[<-|[]]]]]]; rewrite Hcol; raise_through.
Qed.

Lemma dashboard_needs_column df label :
  In label dashboard_categorical_columns -> has_column df label = false ->
  raises (Dashboard.generate_insights df).
Proof.
  intros Hin Hcol. apply getitem_missing in Hcol.
  unfold Dashboard.generate_insights.
  destruct Hin as [<-|[<-|[<-|[<-|[]]]]]; rewrite Hcol; raise_through.
Qed.

(** C3. On a frame that lacks a column:
    - when it is the forecast effort column and the five categorical
      columns have values, the visualizer returns its six other statements
      and no effort statement;
    - when it is one of the categorical columns, the generator that reads
      it raises. *)
Theorem generate_insights_missing_column (df : DataFrame) (label : string) :
  has_column df label = false ->
  (label = "ABAP Effort Forecast (hrs)" ->
   (forall l, In l categorical_columns -> has_values df l) ->
   exists w wn i n c cn p pn s sn,
     Visualizer.generate_insights df
     = Ok [TotalItems (len df);
           MostCommonWricef w wn (percent wn (len df));
           LargestImplementation i n (percent n (len df));
           MostCommonComplexity c cn (percent cn (len df));
           MostCommonPriority p pn (percent pn (len df));
           MostCommonStage s sn (percent sn (len df))]) /\
  (In label categorical_columns -> raises (Visualizer.generate_insights df)) /\
  (In label dashboard_categorical_columns ->
   raises (Dashboard.generate_insights df)).
Proof.
  intros Hcol. split; [|split].
  - intros -> Hvals. unfold Visualizer.generate_insights. rewrite Hcol.
    destruct (Hvals "WRICEF Type") as (s1 & G1 & N1); [simpl; auto|].
    destruct (Hvals "Implementation") as (s2 & G2 & N2); [simpl; auto|].
    destruct (Hvals "Complexity") as (s3 & G3 & N3); [simpl; auto|].
    destruct (Hvals "Priority of Delivery") as (s4 & G4 & N4); [simpl; auto|].
    destruct (Hvals "Stage") as (s5 & G5 & N5); [simpl; auto 6|].
    destruct (most_common_mode s1 N1) as (w & wn & M1 & M2).
    destruct (most_common_top s2 N2) as (i & n & T2 & U2).
    destruct (most_common_top s3 N3) as (c & cn & T3 & U3).
    destruct (most_common_top s4 N4) as (p & pn & T4 & U4).
    destruct (most_common_top s5 N5) as (s & sn & T5 & U5).
    rewrite G1. cbn [bind]. rewrite M1. cbn [bind]. rewrite M2. cbn [bind].
    rewrite G2. cbn [bind]. rewrite T2. cbn [bind]. rewrite U2. cbn [bind].
    rewrite G3. cbn [bind]. rewrite T3. cbn [bind]. rewrite U3. cbn [bind].
    rewrite G4. cbn [bind]. rewrite T4. cbn [bind]. rewrite U4. cbn [bind].
    rewrite G5. cbn [bind]. rewrite T5. cbn [bind]. rewrite U5. cbn [bind].
    exists w, wn, i, n, c, cn, p, pn, s, sn. reflexivity.
  - intros Hin. exact (visualizer_needs_column df label Hin Hcol).
  - intros Hin. exact (dashboard_needs_column df label Hin Hcol).
Qed.

Lemma generate_insights_missing_column_witness :
  exists w wn i n c cn p pn s sn,
    Visualizer.generate_insights no_effort_df
    = Ok [TotalItems (len no_effort_df);
          MostCommonWricef w wn (percent wn (len no_effort_df));
          LargestImplementation i n (percent n (len no_effort_df));
          MostCommonComplexity c cn (percent cn (len no_effort_df));
          MostCommonPriority p pn (percent pn (len no_effort_df));
          MostCommonStage s sn (percent sn (len no_effort_df))].
Proof.
  refine (proj1 (generate_insights_missing_column no_effort_df
                   "ABAP Effort Forecast (hrs)" _) _ _).
  - reflexivity.
  - reflexivity.
  - intros l [<-|[<-|[<-|[<-|[<-|[]]]]]]; eexists; (split; [reflexivity|]);
      discriminate.
Defined.

(** C3, as stated, fails: without the stage column the visualizer raises
    [KeyError] instead of leaving the stage statement out. *)
Lemma generate_insights_without_stage_raises :
  has_column no_stage_df "Stage" = false /\
  Visualizer.generate_insights no_stage_df = Raise (KeyError (Str "Stage")) /\
  ~ returns (Visualizer.generate_insights no_stage_df).
Proof.
  split; [reflexivity|]. split; [reflexivity|].
  apply raises_not_returns. eexists. reflexivity.
Qed.

(** ** Division by a zero forecast *)

Lemma add_not_finite_l a b :
  F64.is_finite a = false -> F64.is_finite (F64.add a b) = false.
Proof.
  destruct a as [sa|sa| |sa ma ea]; simpl; intros H; try discriminate;
    destruct b as [sb|sb| |sb mb eb]; try reflexivity.
  destruct sa, sb; reflexivity.
Qed.

Lemma add_not_finite_r a b :
  F64.is_finite b = false -> F64.is_finite (F64.add a b) = false.
Proof.
  destruct b as [sb|sb| |sb mb eb]; simpl; intros H; try discriminate;
    destruct a as [sa|sa| |sa ma ea]; try reflexivity.
  destruct sa, sb; reflexivity.
Qed.

Lemma div_not_finite a b :
  F64.is_finite a = false -> F64.is_finite (F64.div a b) = false.
Proof.
  destruct a as [sa|sa| |sa ma ea]; simpl; intros H; try discriminate;
    destruct b as [sb|sb| |sb mb eb]; reflexivity.
Qed.

Lemma fold_add_not_finite xs acc :
  F64.is_finite acc = false \/ (exists x, In x xs /\ F64.is_finite x = false) ->
  F64.is_finite (fold_left F64.add xs acc) = false.
Proof.
  revert acc. induction xs as [|x xs IH]; intros acc; simpl.
  - intros [H|(x & [] & _)]. exact H.
  - intros [H|(y & [->|Hin] & Hy)]; apply IH.
    + left. apply add_not_finite_l. exact H.
    + left. apply add_not_finite_r. exact Hy.
    + right. exists y. auto.
Qed.

(** One infinite ratio is enough for the mean not to be a finite number. *)
Lemma nanmean_not_finite rs r :
  In r rs -> F64.is_inf r = true -> F64.is_finite (nanmean rs) = false.
Proof.
  intros Hin Hr. unfold nanmean, nansum. apply div_not_finite.
  apply fold_add_not_finite. right. exists r. split.
  - apply List.filter_In. split; [exact Hin|]. destruct r; try discriminate.
    reflexivity.
  - destruct r; try discriminate. reflexivity.
Qed.

(** What a zero forecast makes of the ratio: NaN when the actual effort is
    zero or missing, an infinity otherwise. *)
Lemma div_by_zero x y :
  F64.is_zero y = true ->
  if F64.is_zero x || F64.is_nan x
  then F64.is_nan (F64.div x y) = true
  else F64.is_inf (F64.div x y) = true.
Proof.
  destruct y as [sy|sy| |sy my ey]; simpl; intros H; try discriminate.
  destruct x as [sx|sx| |sx mx ex]; reflexivity.
Qed.

Lemma div_floats_lookup xs ys i x y :
  xs !! i = Some x -> ys !! i = Some y ->
  div_floats xs ys !! i = Some (F64.div x y).
Proof.
  revert ys i. induction xs as [|x' xs IH]; intros [|y' ys] [|i]; simpl;
    try discriminate.
  - intros [= ->] [= ->]. reflexivity.
  - apply IH.
Qed.

(** C7. On a frame whose two ABAP effort columns are numeric (and whose
    categorical columns have values) the dashboard's generator returns,
    whatever the forecasts are.  The efficiency it shows is the sum of the
    ratios actual/forecast that are not NaN, divided by their number, the
    ratios being taken over all records.  Nothing looks at the forecast
    before the division: with a zero forecast the ratio is NaN when the
    actual effort is zero or missing, and the mean leaves it out; otherwise
    it is an infinity, it is counted, and the efficiency shown is not a
    finite number. *)
Theorem effort_efficiency_unguarded (df : DataFrame) (sa sf : Series)
    (actual forecast : list float) :
  getitem df "ABAP Actual Effort (hrs)" = Ok sa -> floats sa = Ok actual ->
  getitem df "ABAP Effort Forecast (hrs)" = Ok sf -> floats sf = Ok forecast ->
  (forall l, In l dashboard_categorical_columns -> has_values df l) ->
  let ratios := div_floats actual forecast in
  let counted := List.filter not_nan ratios in
  (exists insights,
     Dashboard.generate_insights df = Ok insights /\
     In (EffortEfficiency (nanmean ratios)) insights) /\
  nanmean ratios
    = F64.div (fold_left F64.add counted F64.zero) (F64.of_nat (length counted)) /\
  forall i x y,
    actual !! i = Some x -> forecast !! i = Some y -> F64.is_zero y = true ->
    ratios !! i = Some (F64.div x y) /\
    if F64.is_zero x || F64.is_nan x
    then F64.is_nan (F64.div x y) = true /\ ~ In (F64.div x y) counted
    else F64.is_inf (F64.div x y) = true /\ In (F64.div x y) counted /\
         F64.is_finite (nanmean ratios) = false.
Proof.
  intros Ha Hxa Hf Hxf Hvals. cbv zeta. split; [|split].
  - unfold Dashboard.generate_insights.
    destruct (Hvals "WRICEF Type") as (s1 & G1 & N1); [simpl; auto|].
    destruct (Hvals "Implementation") as (s2 & G2 & N2); [simpl; auto|].
    destruct (Hvals "Complexity") as (s3 & G3 & N3); [simpl; auto|].
    destruct (Hvals "Priority of Delivery") as (s4 & G4 & N4); [simpl; auto|].
    destruct (most_common_mode s1 N1) as (w & wn & M1 & M2).
    destruct (most_common_top s2 N2) as (i & n & T2 & U2).
    destruct (most_common_top s3 N3) as (c & cn & T3 & U3).
    destruct (most_common_top s4 N4) as (p & pn & T4 & U4).
    rewrite G1. cbn [bind]. rewrite M1. cbn [bind]. rewrite M2. cbn [bind].
    rewrite G2. cbn [bind]. rewrite T2. cbn [bind]. rewrite U2. cbn [bind].
    rewrite Hf. cbn [bind]. unfold mean, sum. rewrite Hxf. cbn [bind].
    rewrite G3. cbn [bind]. rewrite T3. cbn [bind]. rewrite U3. cbn [bind].
    rewrite G4. cbn [bind]. rewrite T4. cbn [bind]. rewrite U4. cbn [bind].
    rewrite Ha. cbn [bind]. unfold series_div. rewrite Hxa, Hxf. cbn [bind].
    eexists. split; [reflexivity|]. simpl. tauto.
  - reflexivity.
  - intros i x y Hx Hy Hzero.
    pose proof (div_floats_lookup _ _ _ _ _ Hx Hy) as Hr.
    split; [exact Hr|].
    pose proof (div_by_zero x y Hzero) as Hdiv.
    apply list_elem_of_lookup_2 in Hr. apply list_elem_of_In in Hr.
    destruct (F64.is_zero x || F64.is_nan x).
    + split; [exact Hdiv|]. intros Hin. apply List.filter_In in Hin as [_ Hn].
      unfold not_nan in Hn. rewrite Hdiv in Hn. discriminate.
    + split; [exact Hdiv|]. split.
      * apply List.filter_In. split; [exact Hr|]. unfold not_nan.
        destruct (F64.div x y); try discriminate; reflexivity.
      * exact (nanmean_not_finite _ _ Hr Hdiv).
Qed.

Lemma effort_efficiency_unguarded_witness :
  let ratios := div_floats example_actual example_forecast in
  let counted := List.filter not_nan ratios in
  (exists insights,
     Dashboard.generate_insights example_df = Ok insights /\
     In (EffortEfficiency (nanmean ratios)) insights) /\
  nanmean ratios
    = F64.div (fold_left F64.add counted F64.zero) (F64.of_nat (length counted)) /\
  forall i x y,
    example_actual !! i = Some x -> example_forecast !! i = Some y ->
    F64.is_zero y = true ->
    ratios !! i = Some (F64.div x y) /\
    if F64.is_zero x || F64.is_nan x
    then F64.is_nan (F64.div x y) = true /\ ~ In (F64.div x y) counted
    else F64.is_inf (F64.div x y) = true /\ In (F64.div x y) counted /\
         F64.is_finite (nanmean ratios) = false.
Proof.
  apply (effort_efficiency_unguarded example_df
           (map Num example_actual) (map Num example_forecast)).
  - reflexivity.
  - reflexivity.
  - reflexivity.
  - reflexivity.
  - intros l [<-|[<-|[<-|[<-|[]]]]]; eexists; (split; [reflexivity|]);
      discriminate.
Defined.

(** C7, as stated, fails twice.  On the tracker the third record has a zero
    forecast and an actual effort of 5: the efficiency shown is infinite,
    not the mean over the records with a forecast.  On its first two
    records the second has 0/0: the efficiency shown is 3/2, the NaN is
    left out of the mean, not included. *)
Lemma effort_efficiency_counterexample :
  (exists l actual forecast,
     Dashboard.generate_insights example_df = Ok l /\
     (s <- getitem example_df "ABAP Actual Effort (hrs)" ;; floats s) = Ok actual /\
     (s <- getitem example_df "ABAP Effort Forecast (hrs)" ;; floats s)
       = Ok forecast /\
     In (EffortEfficiency F64.inf) l /\
     ~ In (EffortEfficiency (mean_where_forecast_nonzero actual forecast)) l) /\
  (exists l actual forecast,
     Dashboard.generate_insights zero_forecast_df = Ok l /\
     (s <- getitem zero_forecast_df "ABAP Actual Effort (hrs)" ;; floats s)
       = Ok actual /\
     (s <- getitem zero_forecast_df "ABAP Effort Forecast (hrs)" ;; floats s)
       = Ok forecast /\
     In (EffortEfficiency (F64.div (F64.of_Z 3) (F64.of_Z 2))) l /\
     ~ In (EffortEfficiency (mean_of_all (div_floats actual forecast))) l).
Proof.
  split.
  - eexists. eexists. eexists.
    split; [vm_compute; reflexivity|].
    split; [vm_compute; reflexivity|].
    split; [vm_compute; reflexivity|].
    split; [vm_compute; tauto|].
    vm_compute. intros H.
    repeat (destruct H as [H|H]; [discriminate|]). exact H.
  - eexists. eexists. eexists.
    split; [vm_compute; reflexivity|].
    split; [vm_compute; reflexivity|].
    split; [vm_compute; reflexivity|].
    split; [vm_compute; tauto|].
    vm_compute. intros H.
    repeat (destruct H as [H|H]; [discriminate|]). exact H.
Qed.

(** * Further properties *)

(** ** The filter: rows kept, errors, composition *)

Lemma bind_Ok_r {A : Type} (r : result A) : bind r (fun x => Ok x) = r.
Proof. destruct r; reflexivity. Qed.

Lemma create_filters_rows df si sw sc sp date_range out :
  Dashboard.create_filters df si sw sc sp date_range = Ok out ->
  columns out = columns df /\
  rows out =
    List.filter (fun r => matches_categories (columns df) si sw sc sp r
                          && date_ok (columns df) date_range r) (rows df).
Proof.
  intros H. destruct (Nat.eq_dec (length date_range) 2%nat) as [Hlen|Hlen].
  - destruct date_range as [|s [|e [|x l]]]; try discriminate.
    exact (create_filters_two _ _ _ _ _ _ _ _ H).
  - destruct (create_filters_skipped _ _ _ _ _ _ _ Hlen H) as [HC HR].
    split; [exact HC|]. rewrite HR. apply List.filter_ext. intros r.
    destruct date_range as [|s [|e [|x l]]]; simpl;
      try (rewrite andb_true_r; reflexivity).
    simpl in Hlen. congruence.
Qed.

Lemma filter_equal_cases label selected d :
  (Dashboard.is_all selected = true /\
   Dashboard.filter_equal label selected d = Ok d) \/
  (Dashboard.is_all selected = false /\ has_column d label = true /\
   exists d', Dashboard.filter_equal label selected d = Ok d' /\
              columns d' = columns d /\
              rows d' = List.filter (selected_by (columns d) label selected) (rows d)) \/
  (Dashboard.is_all selected = false /\ has_column d label = false /\
   Dashboard.filter_equal label selected d = Raise (KeyError (Str label))).
Proof.
  destruct (Dashboard.is_all selected) eqn:Hall.
  - left. unfold Dashboard.filter_equal. rewrite Hall. auto.
  - right. destruct (has_column d label) eqn:Hcol.
    + left. destruct (filter_equal_returns label selected d Hcol) as [d' Hd'].
      pose proof (filter_equal_Ok _ _ _ _ Hd') as [HC HR]. eauto 8.
    + right. unfold Dashboard.filter_equal. rewrite Hall.
      rewrite (getitem_missing _ _ Hcol). auto.
Qed.

(** The frame after the four selections, when none of them raises. *)
Lemma categories_pass df si sw sc sp date_range :
  (forall l, In l (needed_columns si sw sc sp date_range) ->
             has_column df l = true) ->
  exists d4,
    (forall k : DataFrame -> result DataFrame,
       (d1 <- Dashboard.filter_equal "Implementation" si df ;;
        d2 <- Dashboard.filter_equal "WRICEF Type" sw d1 ;;
        d3 <- Dashboard.filter_equal "Complexity" sc d2 ;;
        d4 <- Dashboard.filter_equal "Priority of Delivery" sp d3 ;;
        k d4) = k d4) /\
    columns d4 = columns df /\
    rows d4 = List.filter (matches_categories (columns df) si sw sc sp) (rows df).
Proof.
  intros Hcols. unfold needed_columns in Hcols.
  assert (H1 : exists d1, Dashboard.filter_equal "Implementation" si df = Ok d1).
  { destruct (filter_equal_cases "Implementation" si df)
      as [[_ H]|[(_ & _ & d & H & _)|(Hall & Hc & _)]]; eauto.
    rewrite Hcols in Hc; [discriminate|]. rewrite Hall. simpl. auto. }
  destruct H1 as [d1 H1]. pose proof (filter_equal_Ok _ _ _ _ H1) as [C1 R1].
  assert (H2 : exists d2, Dashboard.filter_equal "WRICEF Type" sw d1 = Ok d2).
  { destruct (filter_equal_cases "WRICEF Type" sw d1)
      as [[_ H]|[(_ & _ & d & H & _)|(Hall & Hc & _)]]; eauto.
    rewrite (has_column_columns _ _ _ C1), Hcols in Hc; [discriminate|].
    rewrite Hall. rewrite !in_app_iff. simpl. auto. }
  destruct H2 as [d2 H2]. pose proof (filter_equal_Ok _ _ _ _ H2) as [C2 R2].
  rewrite C1 in C2, R2.
  assert (H3 : exists d3, Dashboard.filter_equal "Complexity" sc d2 = Ok d3).
  { destruct (filter_equal_cases "Complexity" sc d2)
      as [[_ H]|[(_ & _ & d & H & _)|(Hall & Hc & _)]]; eauto.
    rewrite (has_column_columns _ _ _ C2), Hcols in Hc; [discriminate|].
    rewrite Hall. rewrite !in_app_iff. simpl. auto. }
  destruct H3 as [d3 H3]. pose proof (filter_equal_Ok _ _ _ _ H3) as [C3 R3].
  rewrite C2 in C3, R3.
  assert (H4 : exists d4, Dashboard.filter_equal "Priority of Delivery" sp d3 = Ok d4).
  { destruct (filter_equal_cases "Priority of Delivery" sp d3)
      as [[_ H]|[(_ & _ & d & H & _)|(Hall & Hc & _)]]; eauto.
    rewrite (has_column_columns _ _ _ C3), Hcols in Hc; [discriminate|].
    rewrite Hall. rewrite !in_app_iff. simpl. auto 6. }
  destruct H4 as [d4 H4]. pose proof (filter_equal_Ok _ _ _ _ H4) as [C4 R4].
  rewrite C3 in C4, R4.
  exists d4. split; [|split].
  - intros k. rewrite H1. cbn [bind]. rewrite H2. cbn [bind].
    rewrite H3. cbn [bind]. rewrite H4. reflexivity.
  - exact C4.
  - rewrite R4, R3, R2, R1, !filter_filter. apply List.filter_ext. intros r.
    unfold matches_categories. rewrite ?andb_assoc. reflexivity.
Qed.





Lemma needed_columns_suffice (df : DataFrame)
    (selected_impl selected_wricef selected_complexity selected_priority : cell)
    (date_range : list date) :
  (forall l, In l (needed_columns selected_impl selected_wricef
                     selected_complexity selected_priority date_range) ->
             has_column df l = true) ->
  (length date_range = 2%nat ->
   forall r, In r (rows df) ->
     matches_categories (columns df) selected_impl selected_wricef
       selected_complexity selected_priority r = true ->
     is_datetimelike (field (columns df) "FSD Planned Del Date" r) = true) ->
  returns (Dashboard.create_filters df selected_impl selected_wricef
             selected_complexity selected_priority date_range).
Proof.
  intros Hcols Hdates.
  destruct (categories_pass df _ _ _ _ _ Hcols) as (d4 & Hk & C4 & R4).
  unfold Dashboard.create_filters. rewrite Hk.
  destruct (Nat.eq_dec (length date_range) 2%nat) as [Hlen|Hlen].
  - destruct (filter_dates_returns date_range d4) as [d5 H5].
    + rewrite (has_column_columns _ _ _ C4). apply Hcols.
      unfold needed_columns. rewrite !in_app_iff.
      destruct date_range as [|s [|e [|x l]]]; try discriminate.
      simpl. auto 6.
    + rewrite C4, R4. apply List.Forall_forall. intros r Hr.
      apply List.filter_In in Hr as [Hr Hc]. auto.
    + rewrite H5. eexists. reflexivity.
  - rewrite filter_dates_skipped by assumption. eexists. reflexivity.
Qed.




Lemma filter_sublist_impl {A : Type} (f g : A -> bool) (l : list A) :
  (forall x, f x = true -> g x = true) ->
  sublist (List.filter f l) (List.filter g l).
Proof.
  intros Hfg. induction l as [|x l IH]; simpl; [constructor|].
  destruct (f x) eqn:Hf.
  - rewrite (Hfg x Hf). apply sublist_skip. exact IH.
  - destruct (g x); [apply sublist_cons|]; exact IH.
Qed.

Lemma selected_by_relaxes cols label selected' selected r :
  relaxes selected' selected ->
  selected_by cols label selected r = true ->
  selected_by cols label selected' r = true.
Proof.
  unfold selected_by. intros [->|Hall] H; [exact H|]. rewrite Hall. reflexivity.
Qed.

Lemma date_ok_encloses cols date_range' date_range r :
  encloses date_range' date_range ->
  date_ok cols date_range r = true -> date_ok cols date_range' r = true.
Proof.
  intros [Hlen|(s' & e' & s & e & -> & -> & Hs & He)].
  - intros _. destruct date_range' as [|a [|b [|c l]]]; try reflexivity.
    simpl in Hlen. congruence.
  - unfold date_ok, in_date_range.
    destruct (field cols "FSD Planned Del Date" r); try discriminate.
    rewrite !andb_true_iff, !Z.leb_le. lia.
Qed.

(** X5. Putting selections back on "All", dropping the dates or widening
    their range never loses a record: what the narrower call returns is a
    subsequence of what the wider call returns. *)
Theorem create_filters_relaxed (df : DataFrame)
    (si sw sc sp si' sw' sc' sp' : cell) (date_range date_range' : list date)
    (out out' : DataFrame) :
  Dashboard.create_filters df si sw sc sp date_range = Ok out ->
  Dashboard.create_filters df si' sw' sc' sp' date_range' = Ok out' ->
  relaxes si' si -> relaxes sw' sw -> relaxes sc' sc -> relaxes sp' sp ->
  encloses date_range' date_range ->
  sublist (rows out) (rows out').
Proof.
  intros H H' Ri Rw Rc Rp Rd.
  apply create_filters_rows in H as [_ ->].
  apply create_filters_rows in H' as [_ ->].
  apply filter_sublist_impl. intros r.
  unfold matches_categories. rewrite !andb_true_iff.
  intros ((((Hi & Hw) & Hc) & Hp) & Hd).
  eauto 10 using selected_by_relaxes, date_ok_encloses.
Qed.

Lemma create_filters_relaxed_witness :
  sublist (rows (mkDataFrame example_header [example_r3]))
    (rows (mkDataFrame example_header [example_r1; example_r3])).
Proof.
  apply (create_filters_relaxed example_df
           (Str "All") (Str "R") (Str "All") (Str "All")
           (Str "All") (Str "All") (Str "All") (Str "All")
           [738100; 738250] [738000; 738300]).
  - reflexivity.
  - reflexivity.
  - left. reflexivity.
  - right. reflexivity.
  - left. reflexivity.
  - left. reflexivity.
  - right. exists 738000, 738300, 738100, 738250. repeat split; lia.
Defined.

Lemma filter_all_in {A : Type} (f : A -> bool) (l : list A) :
  (forall x, In x l -> f x = true) -> List.filter f l = l.
Proof.
  induction l as [|x l IH]; simpl; intros Hf; [reflexivity|].
  rewrite Hf by auto. f_equal. apply IH. auto.
Qed.

(** On a frame in which every planned date is a timestamp, the range from
    the least to the greatest planned day, with the four selections on
    "All", makes the filter part return the frame unchanged. *)
Lemma default_range_keeps_all (df : DataFrame) (planned : Series)
    (date_range : list date) :
  getitem df "FSD Planned Del Date" = Ok planned ->
  Forall (fun c => exists t, c = Stamp t) planned ->
  Dashboard.default_date_range planned = Some date_range ->
  Dashboard.create_filters df (Str "All") (Str "All") (Str "All") (Str "All")
    date_range = Ok df.
Proof.
  intros Hget Hall Hdef.
  assert (Hloc : exists i, get_loc "FSD Planned Del Date" (columns df) = Some i /\
                           planned = map (iat i) (rows df)).
  { unfold getitem in Hget.
    destruct (get_loc "FSD Planned Del Date" (columns df)) as [i|];
      [|discriminate]. injection Hget as <-. eauto. }
  destruct Hloc as (i & Hloc & ->).
  rewrite List.Forall_forall in Hall.
  assert (Hcell : forall r, In r (rows df) ->
            exists t, field (columns df) "FSD Planned Del Date" r = Stamp t /\
                      In (Stamp t) (map (iat i) (rows df))).
  { intros r Hr. unfold field. rewrite Hloc.
    destruct (Hall (iat i r)) as [t Ht]; [apply in_map; exact Hr|].
    exists t. split; [exact Ht|]. rewrite <- Ht. apply in_map. exact Hr. }
  destruct (needed_columns_suffice df (Str "All") (Str "All") (Str "All")
              (Str "All") date_range) as [out Hout].
  - unfold needed_columns. simpl. intros l Hl.
    destruct date_range as [|s [|e [|x dr]]]; try contradiction.
    destruct Hl as [<-|[]]. unfold has_column. rewrite Hloc. reflexivity.
  - intros _ r Hr _. destruct (Hcell r Hr) as (t & -> & _). reflexivity.
  - rewrite Hout. f_equal.
    pose proof (create_filters_rows _ _ _ _ _ _ _ Hout) as [HC HR].
    apply df_eq; [exact HC|]. rewrite HR. apply filter_all_in.
    intros r Hr. rewrite matches_categories_all. simpl.
    unfold Dashboard.default_date_range in Hdef.
    destruct (series_min (map (iat i) (rows df))) as [lo|] eqn:Hlo; [|discriminate].
    destruct (series_max (map (iat i) (rows df))) as [hi|] eqn:Hhi; [|discriminate].
    injection Hdef as <-. unfold date_ok, in_date_range.
    destruct (Hcell r Hr) as (t & -> & Ht).
    pose proof (series_min_le _ _ _ Hlo Ht).
    pose proof (series_max_ge _ _ _ Hhi Ht).
    apply andb_true_iff. split; apply Z.leb_le; assumption.
Qed.

(** X7. A range whose start lies after its end selects nothing: the frame
    returned has the header of the input and no record. *)
Theorem create_filters_inverted_range (df : DataFrame)
    (selected_impl selected_wricef selected_complexity selected_priority : cell)
    (s e : date) (out : DataFrame) :
  e < s ->
  Dashboard.create_filters df selected_impl selected_wricef selected_complexity
    selected_priority [s; e] = Ok out ->
  columns out = columns df /\ rows out = [].
Proof.
  intros Hlt H. apply create_filters_rows in H as [HC HR].
  split; [exact HC|]. rewrite HR. clear HR.
  induction (rows df) as [|r l IH]; simpl; [reflexivity|].
  replace (in_date_range (columns df) s e r) with false.
  - rewrite andb_false_r. exact IH.
  - unfold in_date_range.
    destruct (field (columns df) "FSD Planned Del Date" r); try reflexivity.
    symmetry. apply andb_false_iff. rewrite !Z.leb_gt. lia.
Qed.

Lemma create_filters_inverted_range_witness :
  columns (mkDataFrame example_header []) = columns example_df /\
  rows (mkDataFrame example_header []) = [].
Proof.
  apply (create_filters_inverted_range example_df (Str "All") (Str "All")
           (Str "All") (Str "All") 738200 738000).
  - lia.
  - reflexivity.
Defined.

(** ** The overview page *)

Lemma filter_length_le {A : Type} (f : A -> bool) (l : list A) :
  (length (List.filter f l) <= length l)%nat.
Proof.
  induction l as [|x l IH]; simpl; [lia|]. destruct (f x); simpl; lia.
Qed.

Lemma unique_length s : (length (unique s) <= length s)%nat.
Proof.
  induction s as [|c s IH]; simpl; [lia|].
  pose proof (filter_length_le (fun d => negb (py_eq d c)) (unique s)). lia.
Qed.

Lemma nunique_le s : (nunique s <= length s)%nat.
Proof.
  unfold nunique, dropna.
  pose proof (unique_length (List.filter notna s)).
  pose proof (filter_length_le notna s). lia.
Qed.

Lemma getitem_present df label :
  has_column df label = true ->
  getitem df label = Ok (map (field (columns df) label) (rows df)).
Proof.
  unfold has_column, getitem, field.
  destruct (get_loc label (columns df)); [reflexivity | discriminate].
Qed.

Lemma floats_numbers s :
  Forall (fun c => is_number c = true) s -> exists xs, floats s = Ok xs.
Proof.
  induction 1 as [|c s Hc _ [xs IH]]; simpl; [eexists; reflexivity|].
  rewrite IH. destruct c; try discriminate; eexists; reflexivity.
Qed.

Lemma floats_length s xs : floats s = Ok xs -> length xs = length s.
Proof.
  revert xs. induction s as [|c s IH]; simpl; intros xs H.
  - injection H as <-. reflexivity.
  - bind_inv H. bind_inv H. injection H as <-. simpl. f_equal. auto.
Qed.

Lemma overview_runs (df : DataFrame) :
  (forall l, In l overview_columns -> has_column df l = true) ->
  Forall (fun r => is_number (field (columns df) "ABAP Effort Forecast (hrs)" r)
                   = true) (rows df) ->
  exists o,
    Dashboard.data_overview df = Ok o /\
    total_records o = len df /\
    (n_implementations o <= len df)%nat /\
    (n_wricef_types o <= len df)%nat /\
    columns (data_sample o) = columns df /\
    rows (data_sample o) = firstn 10 (rows df) /\
    length (rows (data_sample o)) = Nat.min 10 (len df).
Proof.
  intros Hcols Hnum. unfold Dashboard.data_overview.
  rewrite !getitem_present by (apply Hcols; simpl; auto). cbn [bind].
  destruct (floats_numbers
              (map (field (columns df) "ABAP Effort Forecast (hrs)") (rows df)))
    as [xs Hxs].
  { apply Forall_map. exact Hnum. }
  unfold sum. rewrite Hxs. cbn [bind]. eexists. split; [reflexivity|].
  cbn [total_records n_implementations n_wricef_types data_sample head
       columns rows].
  unfold len.
  pose proof (nunique_le (map (field (columns df) "Implementation") (rows df))).
  pose proof (nunique_le (map (field (columns df) "WRICEF Type") (rows df))).
  rewrite length_map in *. rewrite length_firstn.
  repeat split; auto.
Qed.

(** X8. On a frame that has the three columns the overview reads, the
    forecast column holding numbers or missing values, [data_overview]
    runs to its end: it shows the number of records, two counts of distinct
    values that do not exceed it, and as sample the first ten records (all
    of them when there are fewer). *)
Theorem data_overview_returns (df : DataFrame) :
  (forall l, In l overview_columns -> has_column df l = true) ->
  Forall (fun r => is_number (field (columns df) "ABAP Effort Forecast (hrs)" r)
                   = true) (rows df) ->
  exists o,
    Dashboard.data_overview df = Ok o /\
    total_records o = len df /\
    (n_implementations o <= len df)%nat /\
    (n_wricef_types o <= len df)%nat /\
    columns (data_sample o) = columns df /\
    rows (data_sample o) = firstn 10 (rows df) /\
    length (rows (data_sample o)) = Nat.min 10 (len df).
Proof. exact (overview_runs df). Qed.

Lemma data_overview_returns_witness :
  exists o,
    Dashboard.data_overview example_df = Ok o /\
    total_records o = len example_df /\
    (n_implementations o <= len example_df)%nat /\
    (n_wricef_types o <= len example_df)%nat /\
    columns (data_sample o) = columns example_df /\
    rows (data_sample o) = firstn 10 (rows example_df) /\
    length (rows (data_sample o)) = Nat.min 10 (len example_df).
Proof.
  apply (data_overview_returns example_df).
  - intros l [<-|[<-|[<-|[]]]]; reflexivity.
  - repeat constructor.
Defined.

(** X9. On a frame without records that has the three columns,
    [data_overview] shows zeros and an empty sample; unlike
    [generate_insights] it does not raise. *)
Theorem data_overview_empty_frame (df : DataFrame) :
  rows df = [] ->
  (forall l, In l overview_columns -> has_column df l = true) ->
  Dashboard.data_overview df
  = Ok (mkOverview 0 0 0 F64.zero (mkDataFrame (columns df) [])).
Proof.
  intros Hrows Hcols. unfold Dashboard.data_overview.
  rewrite !getitem_present by (apply Hcols; simpl; auto).
  unfold len, head. rewrite Hrows. reflexivity.
Qed.

Lemma data_overview_empty_frame_witness :
  Dashboard.data_overview empty_df
  = Ok (mkOverview 0 0 0 F64.zero (mkDataFrame (columns empty_df) [])).
Proof.
  apply (data_overview_empty_frame empty_df).
  - reflexivity.
  - intros l [<-|[<-|[<-|[]]]]; reflexivity.
Defined.

(** X10. When one of the three columns is not in the frame,
    [data_overview] raises [KeyError] for such a column. *)
Theorem data_overview_missing_column (df : DataFrame) :
  (exists l, In l overview_columns /\ has_column df l = false) ->
  exists l, In l overview_columns /\ has_column df l = false /\
            Dashboard.data_overview df = Raise (KeyError (Str l)).
Proof.
  intros (l & Hl & Hmiss). unfold Dashboard.data_overview.
  destruct (has_column df "Implementation") eqn:H1.
  2: { exists "Implementation". rewrite (getitem_missing _ _ H1).
       simpl. auto. }
  rewrite (getitem_present _ _ H1). cbn [bind].
  destruct (has_column df "WRICEF Type") eqn:H2.
  2: { exists "WRICEF Type". rewrite (getitem_missing _ _ H2). simpl. auto. }
  rewrite (getitem_present _ _ H2). cbn [bind].
  destruct (has_column df "ABAP Effort Forecast (hrs)") eqn:H3.
  2: { exists "ABAP Effort Forecast (hrs)". rewrite (getitem_missing _ _ H3).
       simpl. auto. }
  destruct Hl as [<-|[<-|[<-|[]]]]; congruence.
Qed.

Lemma data_overview_missing_column_witness :
  exists l, In l overview_columns /\ has_column no_effort_df l = false /\
            Dashboard.data_overview no_effort_df = Raise (KeyError (Str l)).
Proof.
  apply (data_overview_missing_column no_effort_df).
  exists "ABAP Effort Forecast (hrs)". split; [simpl; auto | reflexivity].
Defined.

(** ** The dashboard's [main] *)





(** X11. After an upload that cannot be read, [main] shows the error and
    nothing else, whatever is selected: no filter is applied, no page is
    drawn and nothing is raised. *)
Theorem main_failed_upload (ext : Externals) (uploaded : string) (e : exn)
    (selected_impl selected_wricef selected_complexity selected_priority : cell)
    (date_range : list date) (page : string) :
  read_excel ext (UploadedFile uploaded) = Raise e ->
  Dashboard.main ext (Some uploaded) selected_impl selected_wricef
    selected_complexity selected_priority date_range page
  = ([ErrorLoading e], Ok Nothing).
Proof.
  intros H. unfold Dashboard.main, Dashboard.load_data. rewrite H. reflexivity.
Qed.

Lemma main_failed_upload_witness :
  Dashboard.main stub_externals (Some "upload.xlsx") (Str "All") (Str "R")
    (Str "All") (Str "All") [738000; 738200] "Key Insights"
  = ([ErrorLoading FileNotFoundError], Ok Nothing).
Proof.
  apply (main_failed_upload stub_externals "upload.xlsx" FileNotFoundError).
  reflexivity.
Defined.



(** ** The preparer: what it keeps and what it makes sure of *)

Lemma get_loc_In label cols p : get_loc label cols = Some p -> In label cols.
Proof.
  intros H. apply get_loc_lookup in H. apply list_elem_of_In.
  eapply list_elem_of_lookup_2. exact H.
Qed.

Lemma touches_label cols labels label p :
  touches cols labels p = true -> get_loc label cols = Some p -> In label labels.
Proof.
  intros Ht Hl. apply touches_In in Ht as (l & Hin & Hp).
  apply get_loc_lookup in Hp, Hl. congruence.
Qed.

Lemma iat_prepare_record ext cols (r : record) i :
  iat i (prepare_record ext cols r)
  = match r !! i with
    | Some c =>
        (if touches cols Visualizer.effort_cols i then coerce_effort ext else id)
          ((if touches cols (List.filter (contains "Date") cols) i
            then to_datetime_cell ext else id) c)
    | None => NA
    end.
Proof.
  rewrite iat_lookup, lookup_prepare_record. destruct (r !! i); reflexivity.
Qed.

Lemma fold_alter_length cols f labels (r : record) :
  length (fold_left (fun r l => alter_at cols f l r) labels r) = length r.
Proof.
  revert r. induction labels as [|l labels IH]; intros r; simpl; [reflexivity|].
  rewrite IH. unfold alter_at. destruct (get_loc l cols); [|reflexivity].
  apply length_alter.
Qed.

Lemma prepare_record_length ext cols (r : record) :
  length (prepare_record ext cols r) = length r.
Proof. unfold prepare_record. rewrite !fold_alter_length. reflexivity. Qed.

(** A column that is neither a date column nor an effort column. *)
Lemma prepared_other_column ext df label :
  contains "Date" label = false -> ~ In label Visualizer.effort_cols ->
  getitem {| columns := columns df;
             rows := map (prepare_record ext (columns df)) (rows df) |} label
  = getitem df label.
Proof.
  intros Hd He. unfold getitem. cbn [columns rows].
  destruct (get_loc label (columns df)) as [i|] eqn:Hloc; [|reflexivity].
  f_equal. rewrite map_map. apply map_ext. intros r.
  rewrite iat_prepare_record, iat_lookup.
  destruct (touches (columns df) Visualizer.effort_cols i) eqn:Te.
  { exfalso. apply He. eapply touches_label; eauto. }
  destruct (touches (columns df) (List.filter (contains "Date") (columns df)) i)
    eqn:Td.
  { pose proof (touches_label _ _ _ _ Td Hloc) as Hin.
    apply List.filter_In in Hin as [_ Hin]. congruence. }
  destruct (r !! i); reflexivity.
Qed.

(** A date column. *)
Lemma prepared_date_column ext df label s :
  contains "Date" label = true ->
  getitem {| columns := columns df;
             rows := map (prepare_record ext (columns df)) (rows df) |} label
  = Ok s ->
  forallb is_datetimelike s = true.
Proof.
  intros Hd. unfold getitem. cbn [columns rows].
  destruct (get_loc label (columns df)) as [i|] eqn:Hloc; [|discriminate].
  intros [= <-]. apply forallb_forall. intros c Hc.
  apply in_map_iff in Hc as (r' & <- & Hr').
  apply in_map_iff in Hr' as (r & <- & _).
  rewrite iat_prepare_record.
  assert (Td : touches (columns df) (List.filter (contains "Date") (columns df)) i
               = true).
  { eapply In_touches; [|exact Hloc]. apply List.filter_In. split; [|exact Hd].
    eapply get_loc_In. exact Hloc. }
  rewrite Td, (date_effort_disjoint _ _ Td).
  destruct (r !! i) as [c|]; [|reflexivity]. cbn.
  destruct c as [|x|x|t]; simpl; try reflexivity.
  - destruct (datetime_of_number ext x); reflexivity.
  - destruct (parse_datetime ext x); reflexivity.
Qed.

(** An effort column of a rectangular frame. *)
Lemma prepared_effort_column ext df label :
  rectangular df -> In label Visualizer.effort_cols ->
  has_column df label = true ->
  getitem {| columns := columns df;
             rows := map (prepare_record ext (columns df)) (rows df) |} label
  = Ok (map (fun r => coerce_effort ext (field (columns df) label r)) (rows df)).
Proof.
  intros Hrect Hin Hcol. unfold getitem, has_column, field in *.
  cbn [columns rows].
  destruct (get_loc label (columns df)) as [i|] eqn:Hloc; [|discriminate].
  f_equal. rewrite map_map. apply map_ext_in. intros r Hr.
  rewrite iat_prepare_record, iat_lookup.
  rewrite (In_touches _ _ _ _ Hin Hloc).
  destruct (touches (columns df) (List.filter (contains "Date") (columns df)) i)
    eqn:Td.
  { apply date_effort_disjoint in Td.
    rewrite (In_touches _ _ _ _ Hin Hloc) in Td. discriminate. }
  unfold rectangular in Hrect. rewrite List.Forall_forall in Hrect.
  specialize (Hrect r Hr). apply get_loc_lt in Hloc. rewrite <- Hrect in Hloc.
  apply lookup_lt_is_Some_2 in Hloc as [c Hc]. rewrite Hc. reflexivity.
Qed.

Lemma categorical_not_prepared l :
  In l categorical_columns ->
  contains "Date" l = false /\ ~ In l Visualizer.effort_cols.
Proof.
  intros [<-|[<-|[<-|[<-|[<-|[]]]]]]; (split; [reflexivity|]);
    simpl; intuition discriminate.
Qed.

(** X14. [prepare_data] keeps the header, the number of records and the
    length of every record, and it leaves alone every column that is
    neither named like a date nor one of the four effort columns. *)
Theorem prepare_data_keeps (ext : Externals) (df prepared : DataFrame) :
  Visualizer.prepare_data ext df = Ok prepared ->
  columns prepared = columns df /\
  len prepared = len df /\
  Forall2 (fun r r' : record => length r' = length r) (rows df) (rows prepared) /\
  forall label,
    contains "Date" label = false -> ~ In label Visualizer.effort_cols ->
    getitem prepared label = getitem df label.
Proof.
  rewrite prepare_data_records. intros [= <-]. cbn [columns rows].
  split; [reflexivity|]. split; [unfold len; cbn; apply length_map|].
  split.
  - induction (rows df) as [|r l IH]; simpl; constructor; [|exact IH].
    apply prepare_record_length.
  - intros label Hd He. apply prepared_other_column; assumption.
Qed.

Lemma prepare_data_keeps_witness :
  columns prepared_effort_df = columns raw_effort_df /\
  len prepared_effort_df = len raw_effort_df /\
  Forall2 (fun r r' : record => length r' = length r)
    (rows raw_effort_df) (rows prepared_effort_df) /\
  forall label,
    contains "Date" label = false -> ~ In label Visualizer.effort_cols ->
    getitem prepared_effort_df label = getitem raw_effort_df label.
Proof.
  apply (prepare_data_keeps stub_externals raw_effort_df prepared_effort_df).
  reflexivity.
Defined.

(** X15. After [prepare_data] every column whose label contains "Date"
    holds only timestamps and missing values, so that [.dt] can be used on
    it: [dt_date] returns. *)
Theorem prepare_data_date_columns (ext : Externals) (df prepared : DataFrame)
    (label : string) (s : Series) :
  Visualizer.prepare_data ext df = Ok prepared ->
  contains "Date" label = true ->
  getitem prepared label = Ok s ->
  forallb is_datetimelike s = true /\ returns (dt_date s).
Proof.
  rewrite prepare_data_records. intros [= <-] Hd Hs.
  pose proof (prepared_date_column ext df label s Hd Hs) as H.
  split; [exact H|]. unfold dt_date. rewrite H. eexists. reflexivity.
Qed.

Lemma prepare_data_date_columns_witness :
  forallb is_datetimelike [NA; NA; Stamp (mkTimestamp 738000 0)] = true /\
  returns (dt_date [NA; NA; Stamp (mkTimestamp 738000 0)]).
Proof.
  apply (prepare_data_date_columns stub_externals raw_effort_df
           prepared_effort_df "FSD Planned Del Date").
  - reflexivity.
  - reflexivity.
  - reflexivity.
Defined.

(** ** The statements name most frequent values *)

Lemma SFeqb_true (x y : float) :
  SFeqb x y = true ->
  (F64.is_zero x = true /\ F64.is_zero y = true) \/
  (x = y /\ F64.is_nan x = false).
Proof.
  unfold SFeqb.
  destruct x as [sx|sx| |sx mx ex], y as [sy|sy| |sy my ey]; simpl;
    try discriminate; try (destruct sx; discriminate);
    try (destruct sy; discriminate); auto.
  - destruct sx, sy; try discriminate; auto.
  - destruct sx, sy; try discriminate;
      (destruct (ex ?= ey) eqn:He; try discriminate;
       apply Z.compare_eq in He; subst;
       destruct (Pos.compare_cont Eq mx my) eqn:Hm; try discriminate;
       apply Pos.compare_eq in Hm; subst; auto).
Qed.

Lemma SFeqb_zero (x y : float) :
  F64.is_zero x = true -> F64.is_zero y = true -> SFeqb x y = true.
Proof. destruct x, y; try discriminate; reflexivity. Qed.

Lemma SFeqb_sym (x y : float) : SFeqb x y = true -> SFeqb y x = true.
Proof.
  intros H. destruct (SFeqb_true x y H) as [[Hx Hy]|[-> Hn]].
  - apply SFeqb_zero; assumption.
  - exact H.
Qed.

Lemma SFeqb_trans (x y z : float) :
  SFeqb x y = true -> SFeqb y z = true -> SFeqb x z = true.
Proof.
  intros H1 H2.
  destruct (SFeqb_true x y H1) as [[Hx Hy]|[-> _]]; [|exact H2].
  destruct (SFeqb_true y z H2) as [[_ Hz]|[<- _]]; [|exact H1].
  apply SFeqb_zero; assumption.
Qed.

Lemma timestamp_eqb_eq a b : timestamp_eqb a b = true -> a = b.
Proof.
  unfold timestamp_eqb. destruct a, b. simpl.
  rewrite andb_true_iff, !Z.eqb_eq. intros [-> ->]. reflexivity.
Qed.

Lemma py_eq_sym a b : py_eq a b = true -> py_eq b a = true.
Proof.
  destruct a as [|x|x|t], b as [|y|y|u]; simpl; try discriminate.
  - apply SFeqb_sym.
  - rewrite !String.eqb_eq. congruence.
  - intros H. apply timestamp_eqb_eq in H as ->.
    unfold timestamp_eqb. rewrite !Z.eqb_refl. reflexivity.
Qed.

Lemma py_eq_trans a b c :
  py_eq a b = true -> py_eq b c = true -> py_eq a c = true.
Proof.
  destruct a as [|x|x|t], b as [|y|y|u], c as [|z|z|w]; simpl;
    try discriminate.
  - apply SFeqb_trans.
  - rewrite !String.eqb_eq. congruence.
  - intros H1 H2. apply timestamp_eqb_eq in H1 as ->. exact H2.
Qed.

Lemma count_py_eq u v s : py_eq u v = true -> count u s = count v s.
Proof.
  intros H. unfold count. f_equal. apply List.filter_ext. intros c.
  destruct (py_eq c u) eqn:Hu, (py_eq c v) eqn:Hv; try reflexivity.
  - rewrite (py_eq_trans _ _ _ Hu H) in Hv. discriminate.
  - rewrite (py_eq_trans _ _ _ Hv (py_eq_sym _ _ H)) in Hu. discriminate.
Qed.

Lemma unique_covers s c :
  Forall (fun c => notna c = true) s -> In c s ->
  exists w, In w (unique s) /\ py_eq c w = true.
Proof.
  induction s as [|a s IH]; simpl; intros Hna Hin; [contradiction|].
  inversion Hna as [|? ? Ha Hs]; subst.
  destruct Hin as [->|Hin].
  - exists c. split; [left; reflexivity | apply py_eq_refl; exact Ha].
  - destruct (IH Hs Hin) as (w & Hw & Hcw).
    destruct (py_eq w a) eqn:Hwa.
    + exists a. split; [left; reflexivity|]. eapply py_eq_trans; eauto.
    + exists w. split; [|exact Hcw]. right. apply List.filter_In.
      rewrite Hwa. auto.
Qed.

Lemma dropna_notna s : Forall (fun c => notna c = true) (dropna s).
Proof.
  apply List.Forall_forall. intros c Hc. apply List.filter_In in Hc as [_ H].
  exact H.
Qed.

Lemma value_counts_entry s v n :
  In (v, n) (value_counts s) ->
  In v (unique (dropna s)) /\ n = count v (dropna s).
Proof.
  unfold value_counts. intros H. apply (proj1 (sorted_by_count_In _ _)) in H.
  apply in_map_iff in H as (w & [= <- <-] & Hw). auto.
Qed.

Lemma value_counts_has s w :
  In w (unique (dropna s)) -> In (w, count w (dropna s)) (value_counts s).
Proof.
  intros H. unfold value_counts. apply sorted_by_count_In.
  apply in_map_iff. exists w. auto.
Qed.

Lemma insert_by_count_head p l :
  (forall h t, l = h :: t -> forall q, In q l -> (snd q <= snd h)%nat) ->
  forall h t, insert_by_count p l = h :: t ->
  forall q, In q (insert_by_count p l) -> (snd q <= snd h)%nat.
Proof.
  intros Hl h t. destruct l as [|a l]; simpl.
  - intros [= <- <-] q [->|[]]. lia.
  - specialize (Hl a l eq_refl).
    destruct (Nat.ltb_spec (snd p) (snd a)).
    + intros [= <- <-] q [<-|Hq]; [lia|].
      apply insert_by_count_In in Hq as [->|Hq]; [lia|].
      apply Hl. right. exact Hq.
    + intros [= <- <-] q [<-|Hq]; [lia|].
      specialize (Hl q Hq). lia.
Qed.

Lemma value_counts_head s h t :
  value_counts s = h :: t ->
  forall q, In q (value_counts s) -> (snd q <= snd h)%nat.
Proof.
  unfold value_counts.
  generalize (map (fun v => (v, count v (dropna s))) (unique (dropna s))).
  intros l. revert h t. induction l as [|p l IH]; simpl; [discriminate|].
  intros h t. apply insert_by_count_head. exact IH.
Qed.

Lemma head_most_frequent s p t :
  value_counts s = p :: t ->
  forall v, In v (unique (dropna s)) -> count v (dropna s) = snd p ->
  most_frequent s v (snd p).
Proof.
  intros Hvc v Hv Hn. split; [apply unique_In; exact Hv|].
  split; [symmetry; exact Hn|]. intros u Hu.
  destruct (unique_covers _ _ (dropna_notna s) Hu) as (w & Hw & Huw).
  rewrite (count_py_eq _ _ _ Huw).
  apply (value_counts_head s p t Hvc (w, count w (dropna s))).
  apply value_counts_has. exact Hw.
Qed.

Lemma top_most_frequent s v n :
  index0 (value_counts s) = Ok v -> iloc0 (value_counts s) = Ok n ->
  most_frequent s v n.
Proof.
  destruct (value_counts s) as [|[v' n'] t] eqn:Hvc; simpl; [discriminate|].
  intros [= <-] [= <-].
  destruct (value_counts_entry s v' n') as [Hv Hn].
  { rewrite Hvc. left. reflexivity. }
  apply (head_most_frequent s (v', n') t Hvc); [exact Hv | symmetry; exact Hn].
Qed.

Lemma loc_entry vc v n :
  loc vc v = Ok n -> exists w, In (w, n) vc /\ py_eq w v = true.
Proof.
  induction vc as [|[w m] vc IH]; simpl; [discriminate|].
  destruct (py_eq w v) eqn:Hw.
  - intros [= <-]. exists w. auto.
  - intros H. destruct (IH H) as (w' & Hin & Hw'). exists w'. auto.
Qed.

Lemma mode_entry s p t v :
  value_counts s = p :: t -> In v (mode s) ->
  In (v, snd p) (value_counts s).
Proof.
  intros Hvc. unfold mode. rewrite Hvc.
  set (modes := map fst (List.filter (fun q => Nat.eqb (snd q) (snd p)) (p :: t))).
  assert (Hm : In v modes -> In (v, snd p) (p :: t)).
  { unfold modes. intros H. apply in_map_iff in H as ([w m] & <- & H).
    apply List.filter_In in H as [H Heq]. simpl in Heq.
    apply Nat.eqb_eq in Heq. simpl. rewrite <- Heq. exact H. }
  destruct (same_kind modes); [rewrite sorted_In|]; exact Hm.
Qed.

Lemma mode_most_frequent s v n :
  mode0 (mode s) = Ok v -> loc (value_counts s) v = Ok n -> most_frequent s v n.
Proof.
  intros Hm Hl.
  destruct (value_counts s) as [|p t] eqn:Hvc; [discriminate|].
  assert (Hv : In v (mode s)).
  { destruct (mode s) as [|v' ms]; [discriminate|]. injection Hm as <-.
    left. reflexivity. }
  pose proof (mode_entry s p t v Hvc Hv) as He.
  destruct (value_counts_entry s v (snd p) He) as [Hu Hc].
  rewrite <- Hvc in Hl. apply loc_entry in Hl as (w & Hw & Hwv).
  destruct (value_counts_entry s w n Hw) as [_ ->].
  rewrite (count_py_eq _ _ _ Hwv), <- Hc.
  apply (head_most_frequent s p t Hvc); [exact Hu | symmetry; exact Hc].
Qed.

Lemma count_le v s : (count v s <= length s)%nat.
Proof. apply filter_length_le. Qed.

Lemma count_pos v s : In v s -> notna v = true -> (1 <= count v s)%nat.
Proof.
  intros Hin Hna. unfold count.
  assert (H : In v (List.filter (fun c => py_eq c v) s)).
  { apply List.filter_In. split; [exact Hin | apply py_eq_refl; exact Hna]. }
  destruct (List.filter _ s); [contradiction | simpl; lia].
Qed.

Lemma most_frequent_bounds s v n :
  most_frequent s v n -> (1 <= n <= length s)%nat.
Proof.
  intros (Hin & -> & _). split.
  - apply count_pos; [exact Hin|].
    apply List.filter_In in Hin as [_ H]. exact H.
  - pose proof (count_le v (dropna s)).
    pose proof (filter_length_le notna s). unfold dropna in *. lia.
Qed.

Lemma getitem_length df label s : getitem df label = Ok s -> length s = len df.
Proof.
  unfold getitem, len. destruct (get_loc label (columns df)); [|discriminate].
  intros [= <-]. apply length_map.
Qed.

Lemma statement_most_frequent df label s v n :
  getitem df label = Ok s -> most_frequent s v n ->
  exists s, getitem df label = Ok s /\ most_frequent s v n /\
            (1 <= n <= len df)%nat /\ percent n (len df) = percent n (len df).
Proof.
  intros Hs Hm. exists s. split; [exact Hs|]. split; [exact Hm|].
  split; [|reflexivity]. rewrite <- (getitem_length _ _ _ Hs).
  exact (most_frequent_bounds s v n Hm).
Qed.

(** X16. Every statement of the visualizer about a column (WRICEF type,
    implementation, complexity, priority, stage) names a value of that
    column that is not missing, with its number of occurrences, and no
    value of the column occurs more often; the count lies between 1 and
    the number of records and the percentage is computed from it. *)
Theorem visualizer_statements_most_frequent (df : DataFrame)
    (insights : list insight) (i : insight) (label : string) (v : cell)
    (n : nat) (pct : float) :
  Visualizer.generate_insights df = Ok insights ->
  In i insights -> statement_about i = Some (label, v, n, pct) ->
  exists s, getitem df label = Ok s /\ most_frequent s v n /\
              (1 <= n <= len df)%nat /\ pct = percent n (len df).
Proof.
  unfold Visualizer.generate_insights. intros H.
  bind_inv H. bind_inv H. bind_inv H. bind_inv H. bind_inv H. bind_inv H.
  bind_inv H.
  assert (Heff : exists l, a5 = [TotalItems (len df);
                     MostCommonWricef a0 a1 (percent a1 (len df));
                     LargestImplementation a3 a4 (percent a4 (len df))] ++ l /\
                   forall j, In j l -> statement_about j = None).
  { destruct (has_column df "ABAP Effort Forecast (hrs)").
    - bind_inv Ha5. bind_inv Ha5. bind_inv Ha5. injection Ha5 as <-.
      eexists. split; [reflexivity|].
      intros j [<-|[<-|[]]]; reflexivity.
    - injection Ha5 as <-. exists []. split; [reflexivity|]. intros j []. }
  destruct Heff as (l & -> & Hl).
  repeat bind_inv H. injection H as <-.
  intros Hin Hi.
  repeat (first [rewrite in_app_iff in Hin | progress simpl in Hin]).
  repeat (destruct Hin as [Hin|Hin]); try contradiction;
    try (rewrite (Hl _ Hin) in Hi; discriminate);
    subst i; try discriminate; injection Hi as <- <- <- <-;
    eauto using statement_most_frequent, mode_most_frequent, top_most_frequent.
Qed.

(** X17. The same for the dashboard: every statement about a column names
    a value of that column that is not missing, with its number of
    occurrences, no value of the column occurring more often. *)
Theorem dashboard_statements_most_frequent (df : DataFrame)
    (insights : list insight) (i : insight) (label : string) (v : cell)
    (n : nat) (pct : float) :
  Dashboard.generate_insights df = Ok insights ->
  In i insights -> statement_about i = Some (label, v, n, pct) ->
  exists s, getitem df label = Ok s /\ most_frequent s v n /\
              (1 <= n <= len df)%nat /\ pct = percent n (len df).
Proof.
  unfold Dashboard.generate_insights. intros H.
  repeat bind_inv H. injection H as <-.
  intros Hin Hi.
  repeat (first [rewrite in_app_iff in Hin | progress simpl in Hin]).
  repeat (destruct Hin as [Hin|Hin]); try contradiction;
    subst i; try discriminate; injection Hi as <- <- <- <-;
    eauto using statement_most_frequent, mode_most_frequent, top_most_frequent.
Qed.

Lemma visualizer_statements_most_frequent_witness :
  exists s, getitem no_effort_df "Implementation" = Ok s /\
            most_frequent s (Str "EWM") 2 /\
            (1 <= 2 <= len no_effort_df)%nat /\
            percent 2 2 = percent 2 (len no_effort_df).
Proof.
  apply (visualizer_statements_most_frequent no_effort_df
           [TotalItems 2;
            MostCommonWricef (Str "R") 1 (percent 1 2);
            LargestImplementation (Str "EWM") 2 (percent 2 2);
            MostCommonComplexity (Str "Low") 1 (percent 1 2);
            MostCommonPriority (Str "1 - High") 2 (percent 2 2);
            MostCommonStage (Str "04 - Dev in progress") 1 (percent 1 2)]
           (LargestImplementation (Str "EWM") 2 (percent 2 2))
           "Implementation" (Str "EWM") 2%nat (percent 2 2)).
  - vm_compute. reflexivity.
  - simpl. auto.
  - reflexivity.
Defined.

Lemma dashboard_statements_most_frequent_witness :
  exists s, getitem zero_forecast_df "WRICEF Type" = Ok s /\
            most_frequent s (Str "R") 1 /\
            (1 <= 1 <= len zero_forecast_df)%nat /\
            percent 1 2 = percent 1 (len zero_forecast_df).
Proof.
  apply (dashboard_statements_most_frequent zero_forecast_df
           (match Dashboard.generate_insights zero_forecast_df with
            | Ok l => l
            | Raise _ => []
            end)
           (MostCommonWricef (Str "R") 1 (percent 1 2))
           "WRICEF Type" (Str "R") 1%nat (percent 1 2)).
  - vm_compute. reflexivity.
  - vm_compute. auto.
  - reflexivity.
Defined.

(** ** From the preparer to the statements *)

Lemma floats_not_nan s :
  Forall (fun c => exists x, c = Num x /\ F64.is_nan x = false) s ->
  exists xs, floats s = Ok xs /\ List.filter not_nan xs = xs.
Proof.
  induction 1 as [|c s (x & -> & Hx) _ (xs & IH & Hf)]; simpl.
  - exists []. auto.
  - rewrite IH. cbn [bind]. exists (x :: xs). split; [reflexivity|].
    simpl. unfold not_nan at 1. rewrite Hx. simpl. f_equal. exact Hf.
Qed.

Lemma prepared_effort_floats ext df label :
  rectangular df -> In label Visualizer.effort_cols ->
  has_column df label = true ->
  exists s xs,
    getitem {| columns := columns df;
               rows := map (prepare_record ext (columns df)) (rows df) |} label
    = Ok s /\
    floats s = Ok xs /\ List.filter not_nan xs = xs /\ length xs = len df.
Proof.
  intros Hrect Hin Hcol.
  rewrite (prepared_effort_column ext df label Hrect Hin Hcol).
  destruct (floats_not_nan
              (map (fun r => coerce_effort ext (field (columns df) label r))
                 (rows df))) as (xs & Hxs & Hf).
  { apply Forall_map. apply List.Forall_forall. intros r _.
    apply coerce_effort_number. }
  eexists. exists xs. split; [reflexivity|]. split; [exact Hxs|].
  split; [exact Hf|]. rewrite (floats_length _ _ Hxs). apply length_map.
Qed.

Lemma visualizer_insights_run df :
  (forall l, In l categorical_columns -> has_values df l) ->
  (has_column df "ABAP Effort Forecast (hrs)" = true ->
   exists s xs, getitem df "ABAP Effort Forecast (hrs)" = Ok s /\
                floats s = Ok xs) ->
  exists insights,
    Visualizer.generate_insights df = Ok insights /\
    length insights
    = (if has_column df "ABAP Effort Forecast (hrs)" then 8 else 6)%nat.
Proof.
  intros Hvals Heff. unfold Visualizer.generate_insights.
  destruct (Hvals "WRICEF Type") as (s1 & G1 & N1); [simpl; auto|].
  destruct (Hvals "Implementation") as (s2 & G2 & N2); [simpl; auto|].
  destruct (Hvals "Complexity") as (s3 & G3 & N3); [simpl; auto|].
  destruct (Hvals "Priority of Delivery") as (s4 & G4 & N4); [simpl; auto|].
  destruct (Hvals "Stage") as (s5 & G5 & N5); [simpl; auto 6|].
  destruct (most_common_mode s1 N1) as (w & wn & M1 & M2).
  destruct (most_common_top s2 N2) as (i & n & T2 & U2).
  destruct (most_common_top s3 N3) as (c & cn & T3 & U3).
  destruct (most_common_top s4 N4) as (p & pn & T4 & U4).
  destruct (most_common_top s5 N5) as (s & sn & T5 & U5).
  rewrite G1. cbn [bind]. rewrite M1. cbn [bind]. rewrite M2. cbn [bind].
  rewrite G2. cbn [bind]. rewrite T2. cbn [bind]. rewrite U2. cbn [bind].
  destruct (has_column df "ABAP Effort Forecast (hrs)").
  - destruct (Heff eq_refl) as (se & xs & Ge & Fe).
    rewrite Ge. cbn [bind]. unfold mean, sum. rewrite Fe. cbn [bind].
    rewrite G3. cbn [bind]. rewrite T3. cbn [bind]. rewrite U3. cbn [bind].
    rewrite G4. cbn [bind]. rewrite T4. cbn [bind]. rewrite U4. cbn [bind].
    rewrite G5. cbn [bind]. rewrite T5. cbn [bind]. rewrite U5. cbn [bind].
    eexists. split; reflexivity.
  - cbn [bind].
    rewrite G3. cbn [bind]. rewrite T3. cbn [bind]. rewrite U3. cbn [bind].
    rewrite G4. cbn [bind]. rewrite T4. cbn [bind]. rewrite U4. cbn [bind].
    rewrite G5. cbn [bind]. rewrite T5. cbn [bind]. rewrite U5. cbn [bind].
    eexists. split; reflexivity.
Qed.

Lemma prepared_has_values ext df l :
  In l categorical_columns -> has_values df l ->
  has_values {| columns := columns df;
                rows := map (prepare_record ext (columns df)) (rows df) |} l.
Proof.
  intros Hin (s & Hs & Hne). exists s. split; [|exact Hne].
  destruct (categorical_not_prepared l Hin) as [Hd He].
  rewrite prepared_other_column; assumption.
Qed.

(** X18. After [prepare_data], [generate_insights] does not fail on the
    effort column, whatever the raw column held: on a rectangular frame
    whose five categorical columns have values it returns its statements,
    eight of them when the forecast column is there and six otherwise. *)
Theorem prepared_frame_has_insights (ext : Externals) (df prepared : DataFrame) :
  Visualizer.prepare_data ext df = Ok prepared ->
  rectangular df ->
  (forall l, In l categorical_columns -> has_values df l) ->
  exists insights,
    Visualizer.generate_insights prepared = Ok insights /\
    length insights
    = (if has_column df "ABAP Effort Forecast (hrs)" then 8 else 6)%nat.
Proof.
  rewrite prepare_data_records. intros [= <-] Hrect Hvals.
  destruct (visualizer_insights_run
              {| columns := columns df;
                 rows := map (prepare_record ext (columns df)) (rows df) |})
    as (insights & Hrun & Hlen).
  - intros l Hl. apply prepared_has_values; auto.
  - intros Hcol.
    destruct (prepared_effort_floats ext df "ABAP Effort Forecast (hrs)" Hrect)
      as (s & xs & Hs & Hxs & _); [simpl; auto | exact Hcol |].
    exists s, xs. auto.
  - exists insights. split; [exact Hrun | exact Hlen].
Qed.

Lemma prepared_frame_has_insights_witness :
  exists insights,
    Visualizer.generate_insights example_df = Ok insights /\
    length insights
    = (if has_column example_df "ABAP Effort Forecast (hrs)" then 8 else 6)%nat.
Proof.
  apply (prepared_frame_has_insights stub_externals example_df example_df).
  - reflexivity.
  - repeat constructor.
  - intros l Hl. unfold has_values. simpl in Hl.
    repeat (destruct Hl as [<-|Hl]); try contradiction;
      (eexists; split; [reflexivity | discriminate]).
Defined.

(** X19. After [prepare_data] the average forecast counts every record: it
    is the total divided by the number of records, a cell that did not
    parse weighing in as 0 instead of being left out. *)
Theorem prepared_average_counts_all (ext : Externals) (df prepared : DataFrame)
    (insights : list insight) :
  Visualizer.prepare_data ext df = Ok prepared ->
  rectangular df ->
  has_column df "ABAP Effort Forecast (hrs)" = true ->
  Visualizer.generate_insights prepared = Ok insights ->
  exists total,
    In (TotalAbapEffort total) insights /\
    In (AverageAbapEffort (F64.div total (F64.of_nat (len df)))) insights.
Proof.
  rewrite prepare_data_records. intros [= <-] Hrect Hcol.
  destruct (prepared_effort_floats ext df "ABAP Effort Forecast (hrs)" Hrect)
    as (s & xs & Hs & Hxs & Hf & Hlen); [simpl; auto | exact Hcol |].
  unfold Visualizer.generate_insights. intros H.
  bind_inv H. bind_inv H. bind_inv H. bind_inv H. bind_inv H. bind_inv H.
  bind_inv H.
  unfold has_column at 1 in Ha5. cbn [columns] in Ha5.
  unfold has_column in Hcol. 
  destruct (get_loc "ABAP Effort Forecast (hrs)" (columns df)) eqn:Hloc;
    [|discriminate].
  rewrite Hs in Ha5. cbn [bind] in Ha5. unfold mean, sum in Ha5.
  rewrite Hxs in Ha5. cbn [bind] in Ha5. injection Ha5 as <-.
  repeat bind_inv H. injection H as <-.
  exists (nansum xs). unfold nanmean. rewrite Hf, Hlen.
  split; repeat (first [rewrite in_app_iff | progress simpl]); tauto.
Qed.

Lemma prepared_average_counts_all_witness :
  exists total,
    In (TotalAbapEffort total)
      (match Visualizer.generate_insights example_df with
       | Ok insights => insights
       | Raise _ => []
       end) /\
    In (AverageAbapEffort (F64.div total (F64.of_nat (len example_df))))
      (match Visualizer.generate_insights example_df with
       | Ok insights => insights
       | Raise _ => []
       end).
Proof.
  apply (prepared_average_counts_all stub_externals example_df example_df).
  - reflexivity.
  - repeat constructor.
  - reflexivity.
  - reflexivity.
Defined.

(** ** The choices of the select boxes *)

Lemma series_unique_In v s : In v (series_unique s) -> In v s.
Proof.
  induction s as [|c s IH]; simpl; [auto|].
  intros [->|H]; [left; reflexivity|].
  right. apply IH. apply List.filter_In in H. tauto.
Qed.

Lemma py_eq_notna c v : py_eq c v = true -> isna c = false /\ isna v = false.
Proof.
  destruct c as [|x|s|t], v as [|y|s'|t']; simpl; try discriminate; auto.
  unfold F64.eqb, F64.is_nan. destruct x, y; simpl; try discriminate; auto.
Qed.

Lemma In_series_unique v s :
  In v s -> isna v = false ->
  exists u, In u (series_unique s) /\ py_eq v u = true.
Proof.
  intros Hin Hv. induction s as [|c s IH]; simpl; [contradiction|].
  destruct Hin as [Hc|Hin].
  - exists v. rewrite Hc. split; [auto|].
    apply py_eq_refl. unfold notna. rewrite Hv. reflexivity.
  - destruct (IH Hin) as (u & Hu & Hvu).
    destruct (same_value u c) eqn:E.
    + exists c. split; [auto|].
      destruct (py_eq_notna v u Hvu) as [_ Hun].
      unfold same_value in E. rewrite Hun in E. simpl in E.
      apply (py_eq_trans v u c); assumption.
    + exists u. split; [|exact Hvu]. right.
      apply List.filter_In. rewrite E. auto.
Qed.

Lemma filter_not_nil {A : Type} (f : A -> bool) (l : list A) (x : A) :
  In x l -> f x = true -> List.filter f l <> [].
Proof.
  intros Hin Hf E.
  assert (H : In x (List.filter f l)) by (apply List.filter_In; auto).
  rewrite E in H. exact H.
Qed.

Lemma filter_none {A : Type} (f : A -> bool) (l : list A) :
  (forall x, f x = false) -> List.filter f l = [].
Proof.
  intros H. induction l as [|x l IH]; simpl; [reflexivity|].
  rewrite H. exact IH.
Qed.

Lemma options_Ok df label choices :
  Dashboard.options df label = Ok choices ->
  has_column df label = true /\
  choices = Str "All"
            :: series_unique (map (field (columns df) label) (rows df)).
Proof.
  unfold Dashboard.options. intros H.
  destruct (has_column df label) eqn:Hcol.
  - rewrite (getitem_present df label Hcol) in H. cbn [bind] in H.
    injection H as <-. auto.
  - rewrite (getitem_missing df label Hcol) in H. discriminate.
Qed.

Lemma filter_equal_present label v df :
  has_column df label = true -> Dashboard.is_all v = false ->
  Dashboard.filter_equal label v df
  = Ok {| columns := columns df;
          rows := List.filter
                    (fun r => py_eq (field (columns df) label r) v) (rows df) |}.
Proof.
  intros Hcol Hall. unfold Dashboard.filter_equal. rewrite Hall.
  rewrite (getitem_present df label Hcol). cbn [bind].
  unfold getitem_mask, series_eq. rewrite map_map, select_map. reflexivity.
Qed.

(** X20. Every choice a select box offers, a missing value apart, keeps
    at least one record of a frame that has records: "All" keeps the
    frame, and a value keeps the records of that value, of which there is
    one. *)
Theorem offered_value_keeps_records (df : DataFrame) (label : string)
    (choices : list cell) (v : cell) :
  Dashboard.options df label = Ok choices ->
  In v choices ->
  isna v = false ->
  exists out,
    Dashboard.filter_equal label v df = Ok out /\
    (Dashboard.is_all v = true -> out = df) /\
    (Dashboard.is_all v = false ->
     rows out <> [] /\
     rows out = List.filter (fun r => py_eq (field (columns df) label r) v)
                  (rows df)).
Proof.
  intros Hopt Hin Hv. destruct (options_Ok df label choices Hopt) as [Hcol ->].
  destruct (Dashboard.is_all v) eqn:Hall.
  - exists df. unfold Dashboard.filter_equal. rewrite Hall.
    split; [reflexivity|]. split; [reflexivity | discriminate].
  - rewrite (filter_equal_present label v df Hcol Hall).
    eexists. split; [reflexivity|]. split; [discriminate|]. intros _.
    cbn [rows]. split; [|reflexivity].
    destruct Hin as [<-|Hin]; [discriminate|].
    apply series_unique_In in Hin. apply List.in_map_iff in Hin.
    destruct Hin as (r & Hr & Hin).
    apply (filter_not_nil _ _ r Hin). rewrite Hr.
    apply py_eq_refl. unfold notna. rewrite Hv. reflexivity.
Qed.

Lemma offered_value_keeps_records_witness :
  exists out,
    Dashboard.filter_equal "WRICEF Type" (Str "R") example_df = Ok out /\
    (Dashboard.is_all (Str "R") = true -> out = example_df) /\
    (Dashboard.is_all (Str "R") = false ->
     rows out <> [] /\
     rows out
     = List.filter
         (fun r => py_eq (field (columns example_df) "WRICEF Type" r) (Str "R"))
         (rows example_df)).
Proof.
  apply (offered_value_keeps_records example_df "WRICEF Type"
           [Str "All"; Str "W"; Str "R"] (Str "R")).
  - reflexivity.
  - simpl. auto.
  - reflexivity.
Defined.

(** X21. A missing value among the choices of a select box, there when
    the column has one, leaves no record when it is chosen: no cell
    compares equal to it. *)
Theorem missing_choice_keeps_nothing (df : DataFrame) (label : string)
    (choices : list cell) (v : cell) :
  Dashboard.options df label = Ok choices ->
  In v choices ->
  isna v = true ->
  Dashboard.filter_equal label v df
  = Ok {| columns := columns df; rows := [] |}.
Proof.
  intros Hopt _ Hv. destruct (options_Ok df label choices Hopt) as [Hcol _].
  assert (Hall : Dashboard.is_all v = false)
    by (destruct v; try reflexivity; discriminate).
  rewrite (filter_equal_present label v df Hcol Hall). do 2 f_equal.
  apply filter_none. intros r.
  destruct (py_eq (field (columns df) label r) v) eqn:E; [|reflexivity].
  apply py_eq_notna in E. destruct E as [_ E]. congruence.
Qed.

Lemma missing_choice_keeps_nothing_witness :
  Dashboard.filter_equal "WRICEF Type" NA missing_type_df
  = Ok {| columns := columns missing_type_df; rows := [] |}.
Proof.
  apply (missing_choice_keeps_nothing missing_type_df "WRICEF Type"
           [Str "All"; NA; Str "R"] NA).
  - reflexivity.
  - simpl. auto.
  - reflexivity.
Defined.

(** X22. Every record that has a value in the column, other than the
    text "All", can be reached: one of the choices taken from the column
    keeps it. *)
Theorem valued_record_is_offered (df : DataFrame) (label : string)
    (choices : list cell) (r : record) :
  Dashboard.options df label = Ok choices ->
  In r (rows df) ->
  isna (field (columns df) label r) = false ->
  Dashboard.is_all (field (columns df) label r) = false ->
  exists v out,
    In v choices /\ Dashboard.is_all v = false /\
    Dashboard.filter_equal label v df = Ok out /\
    In r (rows out).
Proof.
  intros Hopt Hr Hna Hall.
  destruct (options_Ok df label choices Hopt) as [Hcol ->].
  destruct (In_series_unique (field (columns df) label r)
              (map (field (columns df) label) (rows df)))
    as (v & Hv & Heq); [apply List.in_map; exact Hr | exact Hna |].
  assert (Hallv : Dashboard.is_all v = false).
  { destruct (field (columns df) label r) as [|x|s|t], v as [|y|s'|t'];
      simpl in *; try reflexivity; try discriminate.
    apply String.eqb_eq in Heq. congruence. }
  exists v. eexists. split; [right; exact Hv|]. split; [exact Hallv|].
  split; [apply (filter_equal_present label v df Hcol Hallv)|].
  cbn [rows]. apply List.filter_In. auto.
Qed.

Lemma valued_record_is_offered_witness :
  exists v out,
    In v [Str "All"; NA; Str "R"] /\ Dashboard.is_all v = false /\
    Dashboard.filter_equal "WRICEF Type" v missing_type_df = Ok out /\
    In [Str "Catalyst"; Str "R"] (rows out).
Proof.
  apply (valued_record_is_offered missing_type_df "WRICEF Type"
           [Str "All"; NA; Str "R"] [Str "Catalyst"; Str "R"]).
  - reflexivity.
  - simpl. auto.
  - reflexivity.
  - reflexivity.
Defined.

(** ** The whole method: the sidebar, then the filters *)

Lemma series_min_Stamp s t : In (Stamp t) s -> exists m, series_min s = Some m.
Proof.
  induction s as [|c s IH]; simpl; [contradiction|].
  intros [->|H].
  - destruct (series_min s); eauto.
  - destruct (IH H) as [m Hm]. rewrite Hm. destruct c; eauto.
Qed.

Lemma series_max_Stamp s t : In (Stamp t) s -> exists m, series_max s = Some m.
Proof.
  induction s as [|c s IH]; simpl; [contradiction|].
  intros [->|H].
  - destruct (series_max s); eauto.
  - destruct (IH H) as [m Hm]. rewrite Hm. destruct c; eauto.
Qed.

Lemma extreme_date_not_dates extreme s c :
  In c s -> is_datetimelike c = false ->
  extreme_date extreme s = Raise TypeError \/
  extreme_date extreme s = Raise AttributeError.
Proof.
  intros Hin Hc. unfold extreme_date.
  destruct (forallb is_datetimelike s) eqn:E.
  - rewrite forallb_forall in E. specialize (E c Hin). congruence.
  - destruct (forallb is_number s || forallb is_text s); auto.
Qed.

Lemma options_present df label :
  has_column df label = true ->
  Dashboard.options df label
  = Ok (Str "All" :: series_unique (map (field (columns df) label) (rows df))).
Proof.
  intros H. unfold Dashboard.options. rewrite (getitem_present df label H).
  reflexivity.
Qed.

Lemma options_missing df label :
  has_column df label = false ->
  Dashboard.options df label = Raise (KeyError (Str label)).
Proof.
  intros H. unfold Dashboard.options. rewrite (getitem_missing df label H).
  reflexivity.
Qed.

(** The sidebar raises [KeyError] for the first of its five columns that
    is absent. *)
Lemma sidebar_missing df :
  (exists l, In l sidebar_columns /\ has_column df l = false) ->
  exists l, In l sidebar_columns /\ has_column df l = false /\
            Dashboard.sidebar df = Raise (KeyError (Str l)).
Proof.
  intros (l0 & Hin & Hl0). unfold Dashboard.sidebar.
  destruct (has_column df "Implementation") eqn:H1.
  2:{ exists "Implementation". rewrite (options_missing _ _ H1).
      simpl; auto. }
  rewrite (options_present _ _ H1). cbn [bind].
  destruct (has_column df "WRICEF Type") eqn:H2.
  2:{ exists "WRICEF Type". rewrite (options_missing _ _ H2).
      simpl; auto. }
  rewrite (options_present _ _ H2). cbn [bind].
  destruct (has_column df "Complexity") eqn:H3.
  2:{ exists "Complexity". rewrite (options_missing _ _ H3).
      simpl; auto 6. }
  rewrite (options_present _ _ H3). cbn [bind].
  destruct (has_column df "Priority of Delivery") eqn:H4.
  2:{ exists "Priority of Delivery". rewrite (options_missing _ _ H4).
      simpl; auto 6. }
  rewrite (options_present _ _ H4). cbn [bind].
  destruct (has_column df "FSD Planned Del Date") eqn:H5.
  2:{ exists "FSD Planned Del Date". rewrite (getitem_missing _ _ H5).
      simpl; auto 8. }
  exfalso. simpl in Hin.
  repeat (destruct Hin as [<-|Hin]; [congruence|]). contradiction.
Qed.

(** With its five columns there, the sidebar gets as far as the date
    picker, and through it when the planned dates can be compared. *)
Lemma sidebar_dates df planned :
  (forall l, In l sidebar_columns -> has_column df l = true) ->
  getitem df "FSD Planned Del Date" = Ok planned ->
  Dashboard.sidebar df
  = (value_min <- extreme_date series_min planned ;;
     value_max <- extreme_date series_max planned ;;
     lo <- extreme_date series_min planned ;;
     hi <- extreme_date series_max planned ;;
     Ok (mkSidebar
           (Str "All" :: series_unique
              (map (field (columns df) "Implementation") (rows df)))
           (Str "All" :: series_unique
              (map (field (columns df) "WRICEF Type") (rows df)))
           (Str "All" :: series_unique
              (map (field (columns df) "Complexity") (rows df)))
           (Str "All" :: series_unique
              (map (field (columns df) "Priority of Delivery") (rows df)))
           [value_min; value_max] lo hi)).
Proof.
  intros Hcols Hget. unfold Dashboard.sidebar.
  rewrite !options_present by (apply Hcols; simpl; auto 6).
  cbn [bind]. rewrite Hget. cbn [bind]. reflexivity.
Qed.

Lemma sidebar_returns df planned t :
  (forall l, In l sidebar_columns -> has_column df l = true) ->
  getitem df "FSD Planned Del Date" = Ok planned ->
  forallb is_datetimelike planned = true ->
  In (Stamp t) planned ->
  exists w, Dashboard.sidebar df = Ok w.
Proof.
  intros Hcols Hget Hdt Hin. rewrite (sidebar_dates df planned Hcols Hget).
  unfold extreme_date. rewrite Hdt.
  destruct (series_min_Stamp planned t Hin) as [lo ->].
  destruct (series_max_Stamp planned t Hin) as [hi ->].
  cbn [bind]. eexists. reflexivity.
Qed.

Lemma sidebar_not_dates df planned c :
  (forall l, In l sidebar_columns -> has_column df l = true) ->
  getitem df "FSD Planned Del Date" = Ok planned ->
  In c planned -> is_datetimelike c = false ->
  Dashboard.sidebar df = Raise TypeError \/
  Dashboard.sidebar df = Raise AttributeError.
Proof.
  intros Hcols Hget Hin Hc. rewrite (sidebar_dates df planned Hcols Hget).
  destruct (extreme_date_not_dates series_min planned c Hin Hc) as [-> | ->];
    cbn [bind]; auto.
Qed.

(** What a sidebar that was drawn tells of the frame. *)
Lemma sidebar_Ok_inv df w :
  Dashboard.sidebar df = Ok w ->
  (forall l, In l sidebar_columns -> has_column df l = true) /\
  exists planned lo hi,
    getitem df "FSD Planned Del Date" = Ok planned /\
    forallb is_datetimelike planned = true /\
    series_min planned = Some lo /\ series_max planned = Some hi /\
    value w = [ts_date lo; ts_date hi].
Proof.
  intros H.
  assert (Hcols : forall l, In l sidebar_columns -> has_column df l = true).
  { intros l Hl. destruct (has_column df l) eqn:E; [reflexivity|].
    destruct (sidebar_missing df) as (l' & _ & _ & Hr); [eauto|].
    congruence. }
  split; [exact Hcols|].
  pose proof (getitem_present df "FSD Planned Del Date"
                (Hcols _ ltac:(simpl; auto 6))) as Hget.
  rewrite (sidebar_dates df _ Hcols Hget) in H.
  exists (map (field (columns df) "FSD Planned Del Date") (rows df)).
  unfold extreme_date in H.
  destruct (forallb is_datetimelike _) eqn:Hdt.
  - destruct (series_min _) as [lo|]; [|discriminate].
    destruct (series_max _) as [hi|]; [|discriminate].
    cbn [bind] in H. injection H as <-. exists lo, hi. auto.
  - destruct (forallb is_number _ || forallb is_text _); discriminate.
Qed.

(** Every frame the method returns is the one its filter part returns, so
    what holds of the frames [create_filters] returns holds of the frames
    the whole method returns. *)
Lemma create_filters_method_Ok df si sw sc sp date_range out :
  Dashboard.create_filters_method df si sw sc sp date_range = Ok out ->
  Dashboard.create_filters df si sw sc sp date_range = Ok out.
Proof.
  unfold Dashboard.create_filters_method. intros H.
  destruct (Dashboard.sidebar df); [exact H | discriminate].
Qed.

Lemma needed_in_sidebar si sw sc sp date_range l :
  In l (needed_columns si sw sc sp date_range) -> In l sidebar_columns.
Proof.
  unfold needed_columns, sidebar_columns. rewrite !in_app_iff.
  destruct (Dashboard.is_all si), (Dashboard.is_all sw),
    (Dashboard.is_all sc), (Dashboard.is_all sp);
    destruct date_range as [|s [|e [|x dr]]]; simpl; tauto.
Qed.

(** C4. On a frame that has the five columns the sidebar reads, the
    planned dates being timestamps or missing and one of them a timestamp,
    [create_filters] with the four selections on "All" and a date tuple
    that does not have two bounds returns the frame it was given. *)
Theorem create_filters_all_is_identity (df : DataFrame) (planned : Series)
    (t : Timestamp) (date_range : list date) :
  (forall l, In l sidebar_columns -> has_column df l = true) ->
  getitem df "FSD Planned Del Date" = Ok planned ->
  forallb is_datetimelike planned = true ->
  In (Stamp t) planned ->
  length date_range <> 2%nat ->
  Dashboard.create_filters_method df (Str "All") (Str "All") (Str "All")
    (Str "All") date_range = Ok df.
Proof.
  intros Hcols Hget Hdt Hin Hlen. unfold Dashboard.create_filters_method.
  destruct (sidebar_returns df planned t Hcols Hget Hdt Hin) as [w ->].
  cbn [bind]. apply filters_all_skipped. exact Hlen.
Qed.

Lemma create_filters_all_is_identity_witness :
  Dashboard.create_filters_method example_df (Str "All") (Str "All")
    (Str "All") (Str "All") [] = Ok example_df.
Proof.
  apply (create_filters_all_is_identity example_df
           [Stamp (mkTimestamp 738000 5); NA; Stamp (mkTimestamp 738200 0)]
           (mkTimestamp 738000 5) []).
  - intros l Hl. simpl in Hl.
    repeat (destruct Hl as [<-|Hl]; [reflexivity|]). contradiction.
  - reflexivity.
  - reflexivity.
  - simpl. auto.
  - simpl. lia.
Defined.

(** C4, the counterexample: on the tracker without its planned dates, with
    nothing selected and no date bound, [create_filters] does not return
    the frame: drawing the date picker raises [KeyError]. *)
Theorem create_filters_all_raises_without_dates :
  Dashboard.create_filters_method no_effort_df (Str "All") (Str "All")
    (Str "All") (Str "All") []
  = Raise (KeyError (Str "FSD Planned Del Date")).
Proof. reflexivity. Qed.

(** X1. [create_filters] reads five columns while it draws the sidebar,
    whatever is selected: when one of them is not in the frame it raises
    [KeyError] for such a column, and no filter is applied. *)
Theorem create_filters_missing_column (df : DataFrame)
    (selected_impl selected_wricef selected_complexity selected_priority : cell)
    (date_range : list date) :
  (exists l, In l sidebar_columns /\ has_column df l = false) ->
  exists l,
    In l sidebar_columns /\ has_column df l = false /\
    Dashboard.create_filters_method df selected_impl selected_wricef
      selected_complexity selected_priority date_range
    = Raise (KeyError (Str l)).
Proof.
  intros H. destruct (sidebar_missing df H) as (l & Hin & Hl & Hr).
  exists l. split; [exact Hin|]. split; [exact Hl|].
  unfold Dashboard.create_filters_method. rewrite Hr. reflexivity.
Qed.

Lemma create_filters_missing_column_witness :
  exists l,
    In l sidebar_columns /\ has_column missing_type_df l = false /\
    Dashboard.create_filters_method missing_type_df (Str "All") (Str "R")
      (Str "All") (Str "All") []
    = Raise (KeyError (Str l)).
Proof.
  apply (create_filters_missing_column missing_type_df).
  exists "Complexity". split; [simpl; auto | reflexivity].
Defined.

(** X2. With the five columns there, when the planned-date column holds a
    cell that is neither a timestamp nor missing (a text, a number),
    [create_filters] returns no frame, whatever is selected: the date
    picker's [min().date()] raises [TypeError] or [AttributeError]. *)
Theorem create_filters_not_datetime (df : DataFrame)
    (selected_impl selected_wricef selected_complexity selected_priority : cell)
    (date_range : list date) (planned : Series) (c : cell) :
  (forall l, In l sidebar_columns -> has_column df l = true) ->
  getitem df "FSD Planned Del Date" = Ok planned ->
  In c planned ->
  is_datetimelike c = false ->
  Dashboard.create_filters_method df selected_impl selected_wricef
    selected_complexity selected_priority date_range = Raise TypeError \/
  Dashboard.create_filters_method df selected_impl selected_wricef
    selected_complexity selected_priority date_range = Raise AttributeError.
Proof.
  intros Hcols Hget Hin Hc. unfold Dashboard.create_filters_method.
  destruct (sidebar_not_dates df planned c Hcols Hget Hin Hc) as [-> | ->];
    cbn [bind]; auto.
Qed.

Lemma create_filters_not_datetime_witness :
  Dashboard.create_filters_method text_date_df (Str "All") (Str "All")
    (Str "All") (Str "All") [] = Raise TypeError \/
  Dashboard.create_filters_method text_date_df (Str "All") (Str "All")
    (Str "All") (Str "All") [] = Raise AttributeError.
Proof.
  apply (create_filters_not_datetime text_date_df (Str "All") (Str "All")
           (Str "All") (Str "All") []
           [Stamp (mkTimestamp 738000 5); Str "soon"] (Str "soon")).
  - intros l Hl. simpl in Hl.
    repeat (destruct Hl as [<-|Hl]; [reflexivity|]). contradiction.
  - reflexivity.
  - simpl. auto.
  - reflexivity.
Defined.

(** X3. On a frame that has the five columns the sidebar reads, the
    planned dates being timestamps or missing and one of them a timestamp,
    [create_filters] returns a frame, whatever is selected and whatever
    the date tuple. *)
Theorem create_filters_succeeds (df : DataFrame)
    (selected_impl selected_wricef selected_complexity selected_priority : cell)
    (date_range : list date) (planned : Series) (t : Timestamp) :
  (forall l, In l sidebar_columns -> has_column df l = true) ->
  getitem df "FSD Planned Del Date" = Ok planned ->
  forallb is_datetimelike planned = true ->
  In (Stamp t) planned ->
  returns (Dashboard.create_filters_method df selected_impl selected_wricef
             selected_complexity selected_priority date_range).
Proof.
  intros Hcols Hget Hdt Hin. unfold Dashboard.create_filters_method.
  destruct (sidebar_returns df planned t Hcols Hget Hdt Hin) as [w ->].
  cbn [bind]. apply needed_columns_suffice.
  - intros l Hl. apply Hcols. exact (needed_in_sidebar _ _ _ _ _ l Hl).
  - intros _ r Hr _.
    rewrite (getitem_present df _ (Hcols _ ltac:(simpl; auto 6))) in Hget.
    injection Hget as <-. rewrite forallb_forall in Hdt.
    apply Hdt. apply in_map. exact Hr.
Qed.

Lemma create_filters_succeeds_witness :
  returns (Dashboard.create_filters_method example_df (Str "All") (Str "R")
             (Str "All") (Str "All") [738000; 738200]).
Proof.
  apply (create_filters_succeeds example_df (Str "All") (Str "R") (Str "All")
           (Str "All") [738000; 738200]
           [Stamp (mkTimestamp 738000 5); NA; Stamp (mkTimestamp 738200 0)]
           (mkTimestamp 738000 5)).
  - intros l Hl. simpl in Hl.
    repeat (destruct Hl as [<-|Hl]; [reflexivity|]). contradiction.
  - reflexivity.
  - reflexivity.
  - simpl. auto.
Defined.

(** X6. On a frame in which every planned date is a timestamp, the value
    the sidebar gives the date picker to start from, with the four
    selections on "All", makes [create_filters] return the frame
    unchanged. *)
Theorem create_filters_default_range (df : DataFrame) (w : sidebar_widgets)
    (planned : Series) :
  Dashboard.sidebar df = Ok w ->
  getitem df "FSD Planned Del Date" = Ok planned ->
  Forall (fun c => exists t, c = Stamp t) planned ->
  Dashboard.create_filters_method df (Str "All") (Str "All") (Str "All")
    (Str "All") (value w) = Ok df.
Proof.
  intros Hw Hget Hall. unfold Dashboard.create_filters_method.
  rewrite Hw. cbn [bind].
  destruct (sidebar_Ok_inv df w Hw)
    as (_ & planned' & lo & hi & Hget' & _ & Hlo & Hhi & Hv).
  rewrite Hget in Hget'. injection Hget' as <-.
  apply (default_range_keeps_all df planned (value w) Hget Hall).
  unfold Dashboard.default_date_range. rewrite Hlo, Hhi, Hv. reflexivity.
Qed.

Lemma create_filters_default_range_witness :
  Dashboard.create_filters_method dated_df (Str "All") (Str "All") (Str "All")
    (Str "All") [738000; 738200] = Ok dated_df.
Proof.
  apply (create_filters_default_range dated_df
           (mkSidebar [Str "All"; Str "EWM"; Str "Catalyst"]
              [Str "All"; Str "W"; Str "R"]
              [Str "All"; Str "Low"; Str "High"]
              [Str "All"; Str "1 - High"; Str "2 - Medium"]
              [738000; 738200] 738000 738200)
           [Stamp (mkTimestamp 738000 5); Stamp (mkTimestamp 738200 0)]).
  - reflexivity.
  - reflexivity.
  - repeat constructor; eexists; reflexivity.
Defined.
